(** * lambda-scheduler: workload preparation and safe file utilities

    A shallow embedding of
      - lib/preparable/process.go  (Preparable, BinaryPreparable: PrepareBin,
                                    Start, SetupProc and the path getters)
      - lib/utils/file_util.go     (WriteFile, GetFile, SafeReadTomlFile,
                                    SafeWriteTomlFile, DeleteFile, Unzip)

    Go strings are byte strings: they are modelled by [string].  A method with
    a pointer receiver is a state transformer on the receiver; a run-time
    panic (index out of range) and [log.Fatal] (which ends the process with
    [os.Exit(1)]) are outcomes of their own, distinct from a returned error. *)

From Stdlib Require Import ZArith Ascii String.
From stdpp Require Import gmap strings list fin_maps.

Local Open Scope Z_scope.

(** ** Go strings *)

Definition len (s : string) : Z := Z.of_nat (String.length s).

(** [s[i]]: [None] stands for the index-out-of-range panic. *)
Definition index (s : string) (i : Z) : option ascii :=
  if (i <? 0) || (len s <=? i) then None else String.get (Z.to_nat i) s.

(** [s[lo:hi]] for in-range bounds. *)
Definition slice (s : string) (lo hi : Z) : string :=
  String.substring (Z.to_nat lo) (Z.to_nat (hi - lo)) s.

(** strings.HasSuffix *)
Definition HasSuffix (s suffix : string) : bool :=
  (len suffix <=? len s) &&
  String.eqb (slice s (len s - len suffix) (len s)) suffix.

(** strings.TrimSuffix *)
Definition TrimSuffix (s suffix : string) : string :=
  if HasSuffix s suffix then slice s 0 (len s - len suffix) else s.

(** ** Outcomes of a call on a mutable receiver *)

Inductive outcome (S A : Type) : Type :=
| Done (a : A) (s : S)   (* the call returned [a], the state is now [s] *)
| Panic                  (* run-time panic *)
| Fatal (s : S)          (* log.Fatal: the whole process exits *)
| Blocked.               (* the call waits for a lock that is held *)
Arguments Done {S A} a s.
Arguments Panic {S A}.
Arguments Fatal {S A} s.
Arguments Blocked {S A}.

Definition M (S A : Type) : Type := S -> outcome S A.

Definition ret {S A} (a : A) : M S A := fun s => Done a s.

Definition bind {S A B} (m : M S A) (k : A -> M S B) : M S B :=
  fun s => match m s with
           | Done a s' => k a s'
           | Panic => Panic
           | Fatal s' => Fatal s'
           | Blocked => Blocked
           end.

(** What a call returned, if it returned. *)
Definition returned {S A} (o : outcome S A) : option A :=
  match o with
  | Done a _ => Some a
  | _ => None
  end.

(** The state a call left behind, if it returned. *)
Definition state_after {S A} (o : outcome S A) : option S :=
  match o with
  | Done _ s => Some s
  | _ => None
  end.

Definition gets {S A} (f : S -> A) : M S A := fun s => Done (f s) s.
Definition modify {S} (f : S -> S) : M S unit := fun s => Done tt (f s).
Definition panic {S A} : M S A := fun _ => Panic.

(** [s[i]] inside a method body. *)
Definition index_or_panic {S} (s : string) (i : Z) : M S ascii :=
  match index s i with
  | Some c => ret c
  | None => panic
  end.

Declare Scope go_scope.
Delimit Scope go_scope with go.
Notation "'let*' x ':=' m 'in' k" := (bind m (fun x => k))
  (at level 10, x name, m at level 100, k at level 200, only parsing) : go_scope.
Notation "'do' m 'in' k" := (bind m (fun _ => k))
  (at level 10, m at level 100, k at level 200, only parsing) : go_scope.

Definition slash : ascii := "/"%char.

(** ** Errors *)

Inductive errno := ENOENT | ENOTDIR | EISDIR.

Inductive error :=
| PathError (op path : string) (e : errno)   (* *os.PathError *)
| LibError (msg : string).                  (* an error of a library call *)

(** What the code calls outside this repository: os/exec, encoding/base64
    and archive/zip.  Their results are taken as given. *)

(** One entry of an opened archive ([*zip.File]). *)
Record ZipFile := mkZipFile {
  zName  : string;                 (* f.Name *)
  zIsDir : bool;                   (* f.FileInfo().IsDir() *)
  zOpen  : option error;           (* the error of f.Open(), if any *)
  zData  : string;                 (* the bytes the entry's reader delivers *)
  zReadErr : option error          (* the error that ends the read, if any *)
}.

Class Externals := {
  (* exec.Command(cmd, args...).Output(): captured standard output, error *)
  exec_output : string -> list string -> string * option error;
  (* base64.StdEncoding.DecodeString *)
  base64_decode : string -> error + string;
  (* the entries zip.OpenReader finds in the bytes of a file *)
  zip_entries : string -> error + list ZipFile
}.

(** ** Paths (path/filepath, strings) on a Unix host *)

(** strings.Split(s, "/") *)
Fixpoint split_slash (s : string) : list string :=
  match s with
  | EmptyString => [EmptyString]
  | String c s' =>
      if Ascii.eqb c slash then EmptyString :: split_slash s'
      else match split_slash s' with
           | h :: t => String c h :: t
           | [] => [String c EmptyString]
           end
  end.

(** strings.Join(elems, "/") *)
Fixpoint join_slash (elems : list string) : string :=
  match elems with
  | [] => ""
  | [e] => e
  | e :: rest => e +:+ "/" +:+ join_slash rest
  end.

(** strings.LastIndex(s, string(sep)) for a one-byte separator; -1 if absent. *)
Fixpoint LastIndex (s : string) (sep : ascii) : Z :=
  match s with
  | EmptyString => -1
  | String c s' =>
      let r := LastIndex s' sep in
      if 0 <=? r then r + 1
      else if Ascii.eqb c sep then 0 else -1
  end.

Definition rooted (path : string) : bool :=
  match path with
  | String c _ => Ascii.eqb c slash
  | EmptyString => false
  end.

(** One element of the path seen by filepath.Clean; [out] holds the elements
    kept so far, the last one first. *)
Definition clean_step (is_rooted : bool) (out : list string) (elem : string)
  : list string :=
  if String.eqb elem "" || String.eqb elem "." then out
  else if String.eqb elem ".." then
    match out with
    | last :: before =>
        if String.eqb last ".." then elem :: out else before
    | [] => if is_rooted then [] else [elem]
    end
  else elem :: out.

(** filepath.Clean *)
Definition Clean (path : string) : string :=
  if String.eqb path "" then "."
  else
    let out := rev (fold_left (clean_step (rooted path)) (split_slash path) []) in
    if rooted path then "/" +:+ join_slash out
    else if String.eqb (join_slash out) "" then "." else join_slash out.

(** filepath.Join(a, b) *)
Definition Join (a b : string) : string :=
  if negb (String.eqb a "") then Clean (a +:+ "/" +:+ b)
  else if negb (String.eqb b "") then Clean b
  else "".

(** filepath.Dir *)
Definition Dir (path : string) : string :=
  Clean (slice path 0 (LastIndex path slash + 1)).

(** ** The file system and the log *)

Inductive node :=
| IsDir
| IsFile (content : string).

Inductive logline :=
| LogDecodeError (e : error)                 (* log.Printf("decode error:", err) *)
| LogUnzipError (e : error) (path : string)  (* log.Printf("error unzipping ...") *)
| LogFatal (e : error).                      (* log.Fatal(err) *)

(** The world outside the descriptor: the files, keyed by their cleaned path
    (no symbolic links, every access permitted, the permission bits passed
    to os.MkdirAll and os.OpenFile are not kept), the lines logged so far and
    the set of file locks that are held. *)
Record World := mkWorld {
  files : gmap string node;
  logs : list logline;
  held : gset string
}.

Definition set_files (f : gmap string node) (w : World) : World :=
  mkWorld f (logs w) (held w).
Definition add_log (l : logline) (w : World) : World :=
  mkWorld (files w) (logs w ++ [l]) (held w).
Definition set_held (h : gset string) (w : World) : World :=
  mkWorld (files w) (logs w) h.

(** The root, the working directory and its ancestors always exist. *)
Definition anchor (p : string) : bool :=
  String.eqb p "/" || String.eqb p "." ||
  forallb (fun e => String.eqb e "..") (split_slash p).

(** os.Stat on a cleaned path *)
Definition stat (fs : gmap string node) (p : string) : option node :=
  if anchor p then Some IsDir else fs !! p.

(** The directories on the way to a cleaned path, the path itself last. *)
Definition ancestors (p : string) : list string :=
  let elems := filter (fun e => e <> "") (split_slash p) in
  let pre := if rooted p then "/" else "" in
  map (fun n => pre +:+ join_slash (take n elems)) (seq 1 (length elems)).

Fixpoint mkdir_chain (fs : gmap string node) (dirs : list string)
  : error + gmap string node :=
  match dirs with
  | [] => inr fs
  | d :: rest =>
      match stat fs d with
      | Some IsDir => mkdir_chain fs rest
      | Some (IsFile _) => inl (PathError "mkdir" d ENOTDIR)
      | None => mkdir_chain (<[d := IsDir]> fs) rest
      end
  end.

(** os.MkdirAll(path, perm) *)
Definition MkdirAll (path : string) : M World (option error) :=
  fun w =>
    if String.eqb path "" then Done (Some (PathError "mkdir" path ENOENT)) w
    else match mkdir_chain (files w) (ancestors (Clean path)) with
         | inl e => Done (Some e) w
         | inr fs => Done None (set_files fs w)
         end.

(** os.OpenFile(path, O_WRONLY|O_CREATE|O_TRUNC, perm): the handle is the
    cleaned path of the file, now empty. *)
Definition OpenFile (path : string) : M World (error + string) :=
  fun w =>
    if String.eqb path "" then Done (inl (PathError "open" path ENOENT)) w
    else
      let p := Clean path in
      match stat (files w) p with
      | Some IsDir => Done (inl (PathError "open" path EISDIR)) w
      | Some (IsFile _) => Done (inr p) (set_files (<[p := IsFile ""]> (files w)) w)
      | None =>
          match stat (files w) (Dir p) with
          | Some IsDir => Done (inr p) (set_files (<[p := IsFile ""]> (files w)) w)
          | Some (IsFile _) => Done (inl (PathError "open" path ENOTDIR)) w
          | None => Done (inl (PathError "open" path ENOENT)) w
          end
      end.

(** Writing [data] at the end of an open file. *)
Definition Write (handle data : string) : M World unit :=
  modify (fun w =>
    match files w !! handle with
    | Some (IsFile old) => set_files (<[handle := IsFile (old +:+ data)]> (files w)) w
    | _ => w
    end).

(** Reading a whole file. *)
Definition ReadFile (path : string) : M World (error + string) :=
  fun w =>
    if String.eqb path "" then Done (inl (PathError "open" path ENOENT)) w
    else match stat (files w) (Clean path) with
         | Some (IsFile c) => Done (inr c) w
         | Some IsDir => Done (inl (PathError "read" path EISDIR)) w
         | None => Done (inl (PathError "open" path ENOENT)) w
         end.

(** ioutil.WriteFile(path, data, perm) *)
Definition WriteFile (path data : string) : M World (option error) :=
  (let* f := OpenFile path in
   match f with
   | inl e => ret (Some e)
   | inr h => do Write h data in ret None
   end)%go.

Definition log_Printf (l : logline) : M World unit := modify (add_log l).

(** log.Fatal(err): the line is logged and the process exits. *)
Definition log_Fatal {A} (e : error) : M World A :=
  fun w => Fatal (add_log (LogFatal e) w).

(** A method of the descriptor, run where the world is in scope too. *)
Definition on_desc {D A} (m : M D A) : M (D * World) A :=
  fun s => match m (fst s) with
           | Done a d => Done a (d, snd s)
           | Panic => Panic
           | Fatal d => Fatal (d, snd s)
           | Blocked => Blocked
           end.

(** A call that touches only the world. *)
Definition on_world {D A} (m : M World A) : M (D * World) A :=
  fun s => match m (snd s) with
           | Done a w => Done a (fst s, w)
           | Panic => Panic
           | Fatal w => Fatal (fst s, w)
           | Blocked => Blocked
           end.

(** ** Archive extraction (lib/utils/file_util.go) *)

Section Unzip.
Context `{Externals}.
Local Open Scope go_scope.

(** zip.OpenReader(src) *)
Definition zip_OpenReader (src : string) : M World (error + list ZipFile) :=
  let* r := ReadFile src in
  match r with
  | inl e => ret (inl e)
  | inr bytes => ret (zip_entries bytes)
  end.

(** The body of [for _, f := range r.File], then the entries that follow. *)
Fixpoint unzip_entries (dest : string) (entries : list ZipFile)
  : M World (option error) :=
  match entries with
  | [] => ret None
  | f :: rest =>
      match zOpen f with
      | Some e => ret (Some e)
      | None =>
          let fpath := Join dest (zName f) in
          if zIsDir f then
            do MkdirAll fpath in
            unzip_entries dest rest
          else
            let lastIndex := LastIndex fpath slash in
            let fdir := if -1 <? lastIndex then slice fpath 0 lastIndex else "" in
            let* err := MkdirAll fdir in
            match err with
            | Some e => log_Fatal e
            | None =>
                let* o := OpenFile fpath in
                match o with
                | inl e => ret (Some e)
                | inr h =>
                    do Write h (zData f) in
                    match zReadErr f with
                    | Some e => ret (Some e)
                    | None => unzip_entries dest rest
                    end
                end
            end
      end
  end.

Definition Unzip (src dest : string) : M World (option error) :=
  let* r := zip_OpenReader src in
  match r with
  | inl e => ret (Some e)
  | inr entries => unzip_entries dest entries
  end.

End Unzip.

(** ** Processes (github.com/struCoder/pmgo/lib/process)

    The package is not part of this repository.  Of [process.Proc] the fields
    are kept that the composite literals of process.go name; a field that a
    literal leaves out has its zero value.  What [proc.Start()] does is taken
    as given. *)

Module process.

(** [&process.ProcStatus{}]: a status with nothing in it yet. *)
Inductive ProcStatus := EmptyStatus.

Record Proc := mkProc {
  Name : string;
  Cmd : string;
  Args : list string;
  Envs : list string;
  WorkingDir : string;
  Path : string;
  Pidfile : string;
  Outfile : string;
  Errfile : string;
  KeepAlive : bool;
  Status : ProcStatus;
  Pid : Z
}.

End process.

Class ProcessLib := {
  (* proc.Start(): the process as the call leaves it, and the error *)
  proc_Start : process.Proc -> M World (process.Proc * option error)
}.

(** ** The source-build variant *)

Module Preparable.

Record t := mk {
  Name : string;
  SourcePath : string;
  Cmd : string;
  WorkingDir : string;
  SysFolder : string;
  Language : string;
  KeepAlive : bool;
  Args : list string;
  Envs : list string
}.

Definition set_SourcePath (v : string) (p : t) : t :=
  mk (Name p) v (Cmd p) (WorkingDir p) (SysFolder p) (Language p)
     (KeepAlive p) (Args p) (Envs p).
Definition set_Cmd (v : string) (p : t) : t :=
  mk (Name p) (SourcePath p) v (WorkingDir p) (SysFolder p) (Language p)
     (KeepAlive p) (Args p) (Envs p).
Definition set_SysFolder (v : string) (p : t) : t :=
  mk (Name p) (SourcePath p) (Cmd p) (WorkingDir p) v (Language p)
     (KeepAlive p) (Args p) (Envs p).

Local Open Scope go_scope.

Definition getPath : M t string :=
  let* sys := gets SysFolder in
  let* c := index_or_panic sys (len sys - 1) in
  do (if Ascii.eqb c slash
      then modify (set_SysFolder (TrimSuffix sys "/"))
      else ret tt) in
  let* sys' := gets SysFolder in
  let* name := gets Name in
  ret (sys' +:+ "/" +:+ name).

Definition getBinPath : M t string :=
  let* path := getPath in
  let* name := gets Name in
  ret (path +:+ "/" +:+ name).

Definition getPidPath : M t string :=
  let* bin := getBinPath in ret (bin +:+ ".pid").

Definition getOutPath : M t string :=
  let* bin := getBinPath in ret (bin +:+ ".out").

Definition getErrPath : M t string :=
  let* bin := getBinPath in ret (bin +:+ ".err").

Definition Identifier : M t string := gets Name.

(** [cmd] and [cmdArgs] as PrepareBin chooses them. *)
Definition build_command (language binPath sourcePath : string)
  : string * list string :=
  if String.eqb language "go"
  then ("go", ["build"; "-o"; binPath; sourcePath +:+ "/."])
  else ("", []).

(** PrepareBin returns the compile command's output and error. *)
Definition PrepareBin `{Externals} : M t (string * option error) :=
  let* src := gets SourcePath in
  let* c := index_or_panic src (len src - 1) in
  do (if Ascii.eqb c slash
      then modify (set_SourcePath (TrimSuffix src "/"))
      else ret tt) in
  let* binPath := getBinPath in
  let* lang := gets Language in
  let* src' := gets SourcePath in
  let invocation := build_command lang binPath src' in
  do modify (set_Cmd binPath) in
  ret (exec_output (fst invocation) (snd invocation)).

(** Start: the process is described, then started. *)
Definition Start `{ProcessLib} : M (t * World) (process.Proc * option error) :=
  let* name := on_desc (gets Name) in
  let* cmd := on_desc (gets Cmd) in
  let* args := on_desc (gets Args) in
  let* path := on_desc getPath in
  let* pidfile := on_desc getPidPath in
  let* outfile := on_desc getOutPath in
  let* errfile := on_desc getErrPath in
  let* keepAlive := on_desc (gets KeepAlive) in
  on_world (proc_Start
    (process.mkProc name cmd args [] "" path pidfile outfile errfile
       keepAlive process.EmptyStatus 0)).

(** SetupProc: the process is described and not started. *)
Definition SetupProc : M t (process.Proc * option error) :=
  let* name := gets Name in
  let* cmd := gets Cmd in
  let* args := gets Args in
  let* path := getPath in
  let* pidfile := getPidPath in
  let* outfile := getOutPath in
  let* errfile := getErrPath in
  let* keepAlive := gets KeepAlive in
  ret (process.mkProc name cmd args [] "" path pidfile outfile errfile
         keepAlive process.EmptyStatus 0, None).

End Preparable.

(** ** The binary-bundle variant *)

Module BinaryPreparable.

Record t := mk {
  Name : string;
  SourcePath : string;
  Cmd : string;
  BZipFile : string;
  SysFolder : string;
  WorkingDir : string;
  Language : string;
  KeepAlive : bool;
  Args : list string;
  Envs : list string
}.

Definition set_Cmd (v : string) (p : t) : t :=
  mk (Name p) (SourcePath p) v (BZipFile p) (SysFolder p) (WorkingDir p)
     (Language p) (KeepAlive p) (Args p) (Envs p).
Definition set_SysFolder (v : string) (p : t) : t :=
  mk (Name p) (SourcePath p) (Cmd p) (BZipFile p) v (WorkingDir p)
     (Language p) (KeepAlive p) (Args p) (Envs p).
Definition set_Envs (v : list string) (p : t) : t :=
  mk (Name p) (SourcePath p) (Cmd p) (BZipFile p) (SysFolder p) (WorkingDir p)
     (Language p) (KeepAlive p) (Args p) v.

Local Open Scope go_scope.

Definition getPath : M t string :=
  let* sys := gets SysFolder in
  let* c := index_or_panic sys (len sys - 1) in
  do (if Ascii.eqb c slash
      then modify (set_SysFolder (TrimSuffix sys "/"))
      else ret tt) in
  let* sys' := gets SysFolder in
  let* name := gets Name in
  ret (sys' +:+ "/" +:+ name).

Definition getBinPath : M t string := gets SourcePath.

Definition getPidPath : M t string :=
  let* path := getPath in
  let* name := gets Name in
  ret (path +:+ "/" +:+ name +:+ ".pid").

Definition getOutPath : M t string :=
  let* path := getPath in
  let* name := gets Name in
  ret (path +:+ "/" +:+ name +:+ ".out").

Definition getErrPath : M t string :=
  let* path := getPath in
  let* name := gets Name in
  ret (path +:+ "/" +:+ name +:+ ".err").

Definition Identifier : M t string := gets Name.

Section PrepareBin.
Context `{Externals}.

(** PrepareBin: returns no bytes and the error, if any. *)
Definition PrepareBin
  : M (t * World) (string * option error) :=
  let* outPath := on_desc getOutPath in
  let* err := on_world (MkdirAll (Dir outPath)) in
  match err with
  | Some e => ret ("", Some e)
  | None =>
      let* path := on_desc getPath in
      let runtimePath := path +:+ "/runtime" in
      let* err := on_world (MkdirAll runtimePath) in
      match err with
      | Some e => ret ("", Some e)
      | None =>
          do on_desc (modify (fun p => set_Envs
                 (Envs p ++
                    ["LAMBDA_TASK_ROOT=" +:+ runtimePath;
                     "PATH=/home/silas/.deno/bin:/usr/bin"]) p)) in
          let* bz := on_desc (gets BZipFile) in
          match base64_decode bz with
          | inl e =>
              do on_world (log_Printf (LogDecodeError e)) in
              ret ("", Some e)
          | inr decoded =>
              let* path := on_desc getPath in
              let zipPath := path +:+ "/function.zip" in
              let* err := on_world (WriteFile zipPath decoded) in
              match err with
              | Some e =>
                  do on_world (log_Printf (LogDecodeError e)) in
                  ret ("", Some e)
              | None =>
                  let* err := on_world (Unzip zipPath runtimePath) in
                  do match err with
                     | Some e => on_world (log_Printf (LogUnzipError e runtimePath))
                     | None => ret tt
                     end in
                  let* path := on_desc getPath in
                  do on_desc (modify (set_Cmd
                                        (path +:+ "/runtime/bootstrap"))) in
                  ret ("", err)
              end
          end
      end
  end.

End PrepareBin.

(** Start: the process is described, then started. *)
Definition Start `{ProcessLib} : M (t * World) (process.Proc * option error) :=
  let* name := on_desc (gets Name) in
  let* cmd := on_desc (gets Cmd) in
  let* args := on_desc (gets Args) in
  let* envs := on_desc (gets Envs) in
  let* workingDir := on_desc getPath in
  let* path := on_desc getPath in
  let* pidfile := on_desc getPidPath in
  let* outfile := on_desc getOutPath in
  let* errfile := on_desc getErrPath in
  let* keepAlive := on_desc (gets KeepAlive) in
  on_world (proc_Start
    (process.mkProc name cmd args envs workingDir path pidfile outfile errfile
       keepAlive process.EmptyStatus 0)).

(** SetupProc: the process is described and not started; its Pid is -1. *)
Definition SetupProc : M t (process.Proc * option error) :=
  let* name := gets Name in
  let* cmd := gets Cmd in
  let* args := gets Args in
  let* envs := gets Envs in
  let* workingDir := getPath in
  let* path := getPath in
  let* pidfile := getPidPath in
  let* outfile := getOutPath in
  let* errfile := getErrPath in
  let* keepAlive := gets KeepAlive in
  ret (process.mkProc name cmd args envs workingDir path pidfile outfile
         errfile keepAlive process.EmptyStatus (-1), None).

End BinaryPreparable.

(** ** Locked structured-config files (lib/utils/file_util.go) *)

(** github.com/BurntSushi/toml at the type [V] of the values stored:
    the bytes Encode writes and its error; the value DecodeFile leaves in
    the target and its error. *)
Class Toml (V : Type) := {
  toml_encode : V -> string * option error;
  toml_decode : string -> V -> V * option error
}.

(** Modelled from the spec: MakeFileMutex, with the Lock and Unlock of the
    mutex it returns, is not among the sources at hand.  The lock is
    exclusive and scoped to the path of the file; a caller blocks until it
    is free. *)
Definition Lock (filename : string) : M World unit :=
  fun w =>
    if decide (filename ∈ held w) then Blocked
    else Done tt (set_held ({[filename]} ∪ held w) w).

Definition Unlock (filename : string) : M World unit :=
  modify (fun w => set_held (held w ∖ {[filename]}) w).

Section TomlFiles.
Context {V : Type} `{Toml V}.
Local Open Scope go_scope.

(** toml.DecodeFile(filename, v) *)
Definition toml_DecodeFile (filename : string) (v : V)
  : M World (V * option error) :=
  let* r := ReadFile filename in
  match r with
  | inl e => ret (v, Some e)
  | inr bytes => ret (toml_decode bytes v)
  end.

(** SafeReadTomlFile: the value now in the target, and the error. *)
Definition SafeReadTomlFile (filename : string) (v : V)
  : M World (V * option error) :=
  do Lock filename in
  let* r := toml_DecodeFile filename v in
  do Unlock filename in
  ret r.

Definition SafeWriteTomlFile (v : V) (filename : string)
  : M World (option error) :=
  do Lock filename in
  let* f := OpenFile filename in
  let* r := match f with
            | inl e => ret (Some e)
            | inr h =>
                do Write h (fst (toml_encode v)) in
                ret (snd (toml_encode v))
            end in
  do Unlock filename in
  ret r.

End TomlFiles.

(** ** The other file utilities (lib/utils/file_util.go) *)

(** os.OpenFile(path, O_CREATE|O_RDWR|O_APPEND, perm): a missing file is
    made, empty; a file that is there keeps what it holds.  The handle is the
    cleaned path; what is written through it goes to the end of the file. *)
Definition OpenFile_append (path : string) : M World (error + string) :=
  fun w =>
    if String.eqb path "" then Done (inl (PathError "open" path ENOENT)) w
    else
      let p := Clean path in
      match stat (files w) p with
      | Some IsDir => Done (inl (PathError "open" path EISDIR)) w
      | Some (IsFile _) => Done (inr p) w
      | None =>
          match stat (files w) (Dir p) with
          | Some IsDir => Done (inr p) (set_files (<[p := IsFile ""]> (files w)) w)
          | Some (IsFile _) => Done (inl (PathError "open" path ENOTDIR)) w
          | None => Done (inl (PathError "open" path ENOENT)) w
          end
      end.

(** Why a cleaned path that is not there cannot be reached: one of the
    names on the way to it is a regular file, or a name is missing. *)
Definition missing (fs : gmap string node) (p : string) : errno :=
  if existsb (fun d => match stat fs d with
                       | Some (IsFile _) => true
                       | _ => false
                       end) (ancestors p)
  then ENOTDIR else ENOENT.

(** os.Stat(path) *)
Definition os_Stat (path : string) : M World (error + node) :=
  fun w =>
    if String.eqb path "" then Done (inl (PathError "stat" path ENOENT)) w
    else match stat (files w) (Clean path) with
         | Some n => Done (inr n) w
         | None =>
             Done (inl (PathError "stat" path (missing (files w) (Clean path)))) w
         end.

(** Whether the directory [d] holds an entry. *)
Definition has_entries (fs : gmap string node) (d : string) : bool :=
  existsb (fun kv => String.eqb (Dir (fst kv)) d && negb (String.eqb (fst kv) d))
          (map_to_list fs).

(** os.Remove(path): a regular file is unlinked, a directory is removed when
    it is empty.  The root, the working directory and its ancestors cannot be
    removed.  The errors outside [errno] are given by their text, as the
    system words them for a path that is spelled as cleaned. *)
Definition os_Remove (path : string) : M World (option error) :=
  fun w =>
    if String.eqb path "" then Done (Some (PathError "remove" path ENOENT)) w
    else
      let p := Clean path in
      if anchor p then
        Done (Some (LibError ("remove " +:+ path +:+
                 (if String.eqb p "/" then ": device or resource busy"
                  else if String.eqb p "." then ": invalid argument"
                  else ": directory not empty")))) w
      else
        match files w !! p with
        | Some (IsFile _) => Done None (set_files (delete p (files w)) w)
        | Some IsDir =>
            if has_entries (files w) p
            then Done (Some (LibError ("remove " +:+ path +:+ ": directory not empty"))) w
            else Done None (set_files (delete p (files w)) w)
        | None => Done (Some (PathError "remove" path (missing (files w) p))) w
        end.

Module utils.
Local Open Scope go_scope.

Definition WriteFile (filepath b : string) : M World (option error) :=
  WriteFile filepath b.

Definition GetFile (filepath : string) : M World (error + string) :=
  OpenFile_append filepath.

Definition DeleteFile (filepath : string) : M World (option error) :=
  let* r := os_Stat filepath in
  match r with
  | inl e => ret (Some e)
  | inr _ => os_Remove filepath
  end.

End utils.

(** ** The path-derivation policy, as the specification words it *)

(** The workload directory [sysFolder/name], a trailing separator of
    [sysFolder] being dropped. *)
Definition workloadDir (sysFolder name : string) : string :=
  TrimSuffix sysFolder "/" +:+ "/" +:+ name.

(** [sysFolder] after [k] calls of getPath: each call drops one trailing
    separator, if there is one. *)
Definition trims (k : nat) (s : string) : string :=
  Nat.iter k (fun x => TrimSuffix x "/") s.

(** A folder name that getPath leaves as it is. *)
Definition normal (s : string) : Prop := s <> "" /\ HasSuffix s "/" = false.

(** The call [g] returns the same on [d] and on the receiver [d1] that it
    leaves behind, which it does not change again. *)
Definition stable {D A : Type} (g : M D A) (d d1 : D) : Prop :=
  exists r, g d = Done r d1 /\ g d1 = Done r d1.

(** The process description with another Pid. *)
Definition with_Pid (pid : Z) (proc : process.Proc) : process.Proc :=
  process.mkProc (process.Name proc) (process.Cmd proc) (process.Args proc)
    (process.Envs proc) (process.WorkingDir proc) (process.Path proc)
    (process.Pidfile proc) (process.Outfile proc) (process.Errfile proc)
    (process.KeepAlive proc) (process.Status proc) pid.

(** The directory Unzip makes for a file entry: the joined path up to its
    last separator, or the empty string when it has none. *)
Definition file_dir (fpath : string) : string :=
  if -1 <? LastIndex fpath slash then slice fpath 0 (LastIndex fpath slash)
  else "".

(** The state a call left behind when it returned or ended the process. *)
Definition final {S A : Type} (o : outcome S A) : option S :=
  match o with
  | Done _ s => Some s
  | Fatal s => Some s
  | _ => None
  end.

Definition same_kind (a b : node) : bool :=
  match a, b with
  | IsDir, IsDir => true
  | IsFile _, IsFile _ => true
  | _, _ => false
  end.

(** Every name of [fs] is still there in [fs'], a directory as a directory
    and a regular file as a regular file. *)
Definition keeps_kinds (fs fs' : gmap string node) : Prop :=
  forall q n, fs !! q = Some n ->
    exists n', fs' !! q = Some n' /\ same_kind n n' = true.

(** The two variables the binary-bundle PrepareBin adds to Envs. *)
Definition runtime_envs (runtimePath : string) : list string :=
  ["LAMBDA_TASK_ROOT=" +:+ runtimePath; "PATH=/home/silas/.deno/bin:/usr/bin"].

(** ** A concrete environment

    A toolchain that fails, a base64 decoder that takes the payload as it
    is, and an archive reader that knows four archives. *)

Definition scenario_externals : Externals := {|
  exec_output := fun _ _ => ("build failed", Some (LibError "exit status 1"));
  base64_decode := fun s => inr s;
  zip_entries := fun bytes =>
    if String.eqb bytes "nested" then
      inr [mkZipFile "a" false None "x" None;
           mkZipFile "a/b" false None "y" None]
    else if String.eqb bytes "escape" then
      inr [mkZipFile "../../etc/passwd" false None "root" None]
    else if String.eqb bytes "shadowed" then
      inr [mkZipFile "a" false None "x" None;
           mkZipFile "a" true None "" None;
           mkZipFile "c" false None "z" None]
    else if String.eqb bytes "bundle" then
      inr [mkZipFile "bootstrap" false None "#!" None]
    else inl (LibError "zip: not a valid zip file")
|}.

(** A process library whose Start never fails and changes nothing. *)
Definition idle_process : ProcessLib := {|
  proc_Start := fun proc => ret (proc, None)
|}.

Definition empty_world : World := mkWorld ∅ [] ∅.

(** The world in which /sys/n/function.zip holds [bytes] and the runtime
    directory /sys/n/runtime is there, still empty. *)
Definition staged (bytes : string) : World :=
  mkWorld (list_to_map [("/sys", IsDir); ("/sys/n", IsDir);
                        ("/sys/n/runtime", IsDir);
                        ("/sys/n/function.zip", IsFile bytes)]) [] ∅.

(** [q] is a regular file. *)
Definition is_file (fs : gmap string node) (q : string) : Prop :=
  exists content, fs !! q = Some (IsFile content).

(** An element of a path holds no separator. *)
Definition no_slash (e : string) : Prop := LastIndex e slash = -1.

Definition plain (e : string) : Prop :=
  e <> "" /\ e <> "." /\ e <> ".." /\ no_slash e.

(** The elements filepath.Clean keeps, the last one first: plain names,
    below them the ".." a relative path starts with. *)
Definition cleaned (is_rooted : bool) (acc : list string) : Prop :=
  exists ns ds, acc = ns ++ ds /\ Forall plain ns /\
    Forall (fun e => e = "..") ds /\ (is_rooted = true -> ds = []).

(** A value is encodable when Encode writes it without an error and
    decoding what Encode wrote gives the value back, whatever the target held
    before: the round trip of the TOML library itself, which is taken as
    given here. *)
Definition encodable {V : Type} `{Toml V} (v : V) : Prop :=
  snd (toml_encode v) = None /\
  forall target, toml_decode (fst (toml_encode v)) target = (v, None).

(** A TOML library for registries that are one string, written as it is. *)
Definition verbatim_toml : Toml string := {|
  toml_encode := fun v => (v, None);
  toml_decode := fun bytes _ => (bytes, None)
|}.

(** A TOML library whose encoder gives up after the first three bytes. *)
Definition failing_toml : Toml string := {|
  toml_encode := fun v => (String.substring 0 3 v,
                           Some (LibError "toml: cannot encode"));
  toml_decode := fun bytes _ => (bytes, None)
|}.

(** * Properties *)

(** ** Strings *)

Lemma length_append (a b : string) :
  String.length (a +:+ b) = (String.length a + String.length b)%nat.
Proof. induction a as [|c a IH]; simpl; [done | by rewrite IH]. Qed.

Lemma get_append_here (a b : string) (c : ascii) :
  String.get (String.length a) (a +:+ String c b) = Some c.
Proof. induction a as [|x a IH]; simpl; done. Qed.

Lemma substring_append_left (a b : string) :
  String.substring 0 (String.length a) (a +:+ b) = a.
Proof.
  induction a as [|x a IH]; simpl.
  - by destruct b.
  - by rewrite IH.
Qed.

Lemma substring_all (b : string) :
  String.substring 0 (String.length b) b = b.
Proof. induction b as [|y b IHb]; simpl; [done | by rewrite IHb]. Qed.

Lemma substring_append_right (a b : string) :
  String.substring (String.length a) (String.length b) (a +:+ b) = b.
Proof.
  induction a as [|x a IH]; simpl; [apply substring_all | exact IH].
Qed.

Lemma string_snoc (s : string) :
  s <> "" -> exists body c, s = body +:+ String c "".
Proof.
  induction s as [|x s IH]; [done | intros _].
  destruct s as [|y s].
  - by exists "", x.
  - destruct IH as (body & c & E); [done |].
    exists (String x body), c. change (String x (String y s) = String x (body +:+ String c "")). by f_equal.
Qed.

Lemma len_snoc (body : string) (c : ascii) :
  len (body +:+ String c "") = len body + 1.
Proof. unfold len. rewrite length_append. simpl. lia. Qed.

Lemma index_empty (i : Z) : index "" i = None.
Proof. unfold index. simpl. by destruct (_ || _). Qed.

Lemma index_last_snoc (body : string) (c : ascii) :
  index (body +:+ String c "") (len (body +:+ String c "") - 1) = Some c.
Proof.
  rewrite len_snoc. unfold index. rewrite len_snoc.
  replace (len body + 1 - 1) with (len body) by lia.
  assert (0 <= len body) by (unfold len; lia).
  destruct (Z.ltb_spec (len body) 0); [lia |].
  destruct (Z.leb_spec (len body + 1) (len body)); [lia |]. simpl.
  unfold len. rewrite Nat2Z.id. apply get_append_here.
Qed.

Lemma index_last_None (s : string) :
  index s (len s - 1) = None <-> s = "".
Proof.
  split.
  - intros E. destruct (decide (s = "")) as [|N]; [done |].
    destruct (string_snoc s N) as (body & c & ->).
    by rewrite index_last_snoc in E.
  - intros ->. apply index_empty.
Qed.

Lemma TrimSuffix_snoc_slash (body : string) :
  TrimSuffix (body +:+ "/") "/" = body.
Proof.
  unfold TrimSuffix, HasSuffix, slice. rewrite len_snoc.
  change (len "/") with 1.
  assert (0 <= len body) by (unfold len; lia).
  destruct (Z.leb_spec 1 (len body + 1)); [| lia]. simpl.
  replace (len body + 1 - 1) with (len body) by lia.
  replace (len body + 1 - len body) with 1 by lia.
  replace (len body - 0) with (len body) by lia.
  unfold len. rewrite Nat2Z.id.
  change (Z.to_nat 1) with (String.length "/").
  rewrite substring_append_right. simpl.
  change (Z.to_nat 0) with 0%nat. apply substring_append_left.
Qed.

(** The branch [if s[len(s)-1] == '/' { s = TrimSuffix(s, "/") }] leaves
    [TrimSuffix s "/"] in every case. *)
Lemma trim_if_last_slash (s : string) (c : ascii) :
  index s (len s - 1) = Some c ->
  (if Ascii.eqb c slash then TrimSuffix s "/" else s) = TrimSuffix s "/".
Proof.
  intros E. destruct (Ascii.eqb_spec c slash) as [->|N]; [done |].
  assert (s <> "") as Hs by (intros ->; by rewrite index_empty in E).
  destruct (string_snoc s Hs) as (body & d & ->).
  rewrite index_last_snoc in E. injection E as ->.
  unfold TrimSuffix, HasSuffix, slice. rewrite len_snoc.
  change (len "/") with 1.
  assert (0 <= len body) by (unfold len; lia).
  destruct (Z.leb_spec 1 (len body + 1)); [| lia]. simpl.
  replace (len body + 1 - 1) with (len body) by lia.
  replace (len body + 1 - len body) with 1 by lia.
  unfold len. rewrite Nat2Z.id.
  change (Z.to_nat 1) with (String.length (String c "")).
  rewrite substring_append_right.
  destruct (String.eqb_spec (String c "") "/") as [E|_]; [| done].
  injection E as ->. by destruct N.
Qed.
(** ** Path derivation *)

Lemma Preparable_set_SysFolder_id (p : Preparable.t) :
  Preparable.set_SysFolder (Preparable.SysFolder p) p = p.
Proof. by destruct p. Qed.

Lemma BinaryPreparable_set_SysFolder_id (p : BinaryPreparable.t) :
  BinaryPreparable.set_SysFolder (BinaryPreparable.SysFolder p) p = p.
Proof. by destruct p. Qed.

Ltac getPath_run E set_id :=
  let c := fresh "c" in
  let Ec := fresh "Ec" in
  let T := fresh "T" in
  unfold bind, gets, index_or_panic;
  match goal with
  | |- context [index ?s ?i] =>
      destruct (index s i) as [c|] eqn:Ec;
      [ pose proof (trim_if_last_slash _ _ Ec) as T
      | apply index_last_None in Ec; contradiction ]
  end;
  unfold ret, modify, workloadDir;
  destruct (Ascii.eqb c slash); simpl; [done |];
  rewrite <- T; by rewrite set_id.

Lemma Preparable_getPath_run (p : Preparable.t) :
  Preparable.SysFolder p <> "" ->
  Preparable.getPath p =
    Done (workloadDir (Preparable.SysFolder p) (Preparable.Name p))
         (Preparable.set_SysFolder (TrimSuffix (Preparable.SysFolder p) "/") p).
Proof.
  intros E. unfold Preparable.getPath.
  getPath_run E Preparable_set_SysFolder_id.
Qed.

Lemma BinaryPreparable_getPath_run (p : BinaryPreparable.t) :
  BinaryPreparable.SysFolder p <> "" ->
  BinaryPreparable.getPath p =
    Done (workloadDir (BinaryPreparable.SysFolder p) (BinaryPreparable.Name p))
         (BinaryPreparable.set_SysFolder
            (TrimSuffix (BinaryPreparable.SysFolder p) "/") p).
Proof.
  intros E. unfold BinaryPreparable.getPath.
  getPath_run E BinaryPreparable_set_SysFolder_id.
Qed.

Lemma Preparable_getPath_panic (p : Preparable.t) :
  Preparable.SysFolder p = "" -> Preparable.getPath p = Panic.
Proof.
  intros E. unfold Preparable.getPath, bind, gets, index_or_panic.
  by rewrite E, index_empty.
Qed.

Lemma BinaryPreparable_getPath_panic (p : BinaryPreparable.t) :
  BinaryPreparable.SysFolder p = "" -> BinaryPreparable.getPath p = Panic.
Proof.
  intros E. unfold BinaryPreparable.getPath, bind, gets, index_or_panic.
  by rewrite E, index_empty.
Qed.
Lemma Preparable_getBinPath_run (p : Preparable.t) :
  Preparable.SysFolder p <> "" ->
  Preparable.getBinPath p =
    Done (workloadDir (Preparable.SysFolder p) (Preparable.Name p)
            +:+ "/" +:+ Preparable.Name p)
         (Preparable.set_SysFolder (TrimSuffix (Preparable.SysFolder p) "/") p).
Proof.
  intros E. unfold Preparable.getBinPath, bind.
  by rewrite (Preparable_getPath_run p E).
Qed.

Lemma Preparable_getBinPath_panic (p : Preparable.t) :
  Preparable.SysFolder p = "" -> Preparable.getBinPath p = Panic.
Proof.
  intros E. unfold Preparable.getBinPath, bind.
  by rewrite (Preparable_getPath_panic p E).
Qed.

Lemma Preparable_set_SourcePath_id (p : Preparable.t) :
  Preparable.set_SourcePath (Preparable.SourcePath p) p = p.
Proof. by destruct p. Qed.

Section SourcePrepare.
Context `{Externals}.

Lemma Preparable_PrepareBin_run (p : Preparable.t) :
  Preparable.SourcePath p <> "" ->
  Preparable.SysFolder p <> "" ->
  let src := TrimSuffix (Preparable.SourcePath p) "/" in
  let bin := workloadDir (Preparable.SysFolder p) (Preparable.Name p)
               +:+ "/" +:+ Preparable.Name p in
  let invocation := Preparable.build_command (Preparable.Language p) bin src in
  Preparable.PrepareBin p =
    Done (exec_output (fst invocation) (snd invocation))
         (Preparable.set_Cmd bin
            (Preparable.set_SysFolder (TrimSuffix (Preparable.SysFolder p) "/")
               (Preparable.set_SourcePath src p))).
Proof.
  intros Esrc Esys. simpl.
  unfold Preparable.PrepareBin, index_or_panic.
  cbv beta iota delta [bind gets].
  destruct (index _ _) as [c|] eqn:Ec;
    [| apply index_last_None in Ec; contradiction].
  pose proof (trim_if_last_slash _ _ Ec) as T.
  cbv beta iota delta [bind ret gets].
  destruct (Ascii.eqb c slash);
    cbv beta iota delta [bind ret modify gets panic].
  - by rewrite Preparable_getBinPath_run.
  - rewrite Preparable_getBinPath_run by done. simpl.
    rewrite <- T. by rewrite Preparable_set_SourcePath_id.
Qed.

Lemma Preparable_PrepareBin_panic (p : Preparable.t) :
  Preparable.SourcePath p = "" \/ Preparable.SysFolder p = "" ->
  Preparable.PrepareBin p = Panic.
Proof.
  intros [E|E]; unfold Preparable.PrepareBin, bind at 1 2, gets at 1,
    index_or_panic.
  - by rewrite E, index_empty.
  - destruct (index _ _) as [c|]; [| done]. unfold ret at 1, modify at 1.
    destruct (Ascii.eqb c slash);
      cbv beta iota delta [bind ret modify gets panic];
      by rewrite Preparable_getBinPath_panic.
Qed.

End SourcePrepare.
Ltac run_getter L :=
  intros; cbv beta iota delta
    [Preparable.getPidPath Preparable.getOutPath Preparable.getErrPath
     BinaryPreparable.getPidPath BinaryPreparable.getOutPath
     BinaryPreparable.getErrPath bind ret gets];
  by rewrite L.

Lemma Preparable_getPidPath_run (p : Preparable.t) :
  Preparable.SysFolder p <> "" ->
  Preparable.getPidPath p =
    Done ((workloadDir (Preparable.SysFolder p) (Preparable.Name p)
             +:+ "/" +:+ Preparable.Name p) +:+ ".pid")
         (Preparable.set_SysFolder (TrimSuffix (Preparable.SysFolder p) "/") p).
Proof. run_getter Preparable_getBinPath_run. Qed.

Lemma Preparable_getOutPath_run (p : Preparable.t) :
  Preparable.SysFolder p <> "" ->
  Preparable.getOutPath p =
    Done ((workloadDir (Preparable.SysFolder p) (Preparable.Name p)
             +:+ "/" +:+ Preparable.Name p) +:+ ".out")
         (Preparable.set_SysFolder (TrimSuffix (Preparable.SysFolder p) "/") p).
Proof. run_getter Preparable_getBinPath_run. Qed.

Lemma Preparable_getErrPath_run (p : Preparable.t) :
  Preparable.SysFolder p <> "" ->
  Preparable.getErrPath p =
    Done ((workloadDir (Preparable.SysFolder p) (Preparable.Name p)
             +:+ "/" +:+ Preparable.Name p) +:+ ".err")
         (Preparable.set_SysFolder (TrimSuffix (Preparable.SysFolder p) "/") p).
Proof. run_getter Preparable_getBinPath_run. Qed.

Lemma BinaryPreparable_getPidPath_run (p : BinaryPreparable.t) :
  BinaryPreparable.SysFolder p <> "" ->
  BinaryPreparable.getPidPath p =
    Done (workloadDir (BinaryPreparable.SysFolder p) (BinaryPreparable.Name p)
            +:+ "/" +:+ BinaryPreparable.Name p +:+ ".pid")
         (BinaryPreparable.set_SysFolder
            (TrimSuffix (BinaryPreparable.SysFolder p) "/") p).
Proof. run_getter BinaryPreparable_getPath_run. Qed.

Lemma BinaryPreparable_getOutPath_run (p : BinaryPreparable.t) :
  BinaryPreparable.SysFolder p <> "" ->
  BinaryPreparable.getOutPath p =
    Done (workloadDir (BinaryPreparable.SysFolder p) (BinaryPreparable.Name p)
            +:+ "/" +:+ BinaryPreparable.Name p +:+ ".out")
         (BinaryPreparable.set_SysFolder
            (TrimSuffix (BinaryPreparable.SysFolder p) "/") p).
Proof. run_getter BinaryPreparable_getPath_run. Qed.

Lemma BinaryPreparable_getErrPath_run (p : BinaryPreparable.t) :
  BinaryPreparable.SysFolder p <> "" ->
  BinaryPreparable.getErrPath p =
    Done (workloadDir (BinaryPreparable.SysFolder p) (BinaryPreparable.Name p)
            +:+ "/" +:+ BinaryPreparable.Name p +:+ ".err")
         (BinaryPreparable.set_SysFolder
            (TrimSuffix (BinaryPreparable.SysFolder p) "/") p).
Proof. run_getter BinaryPreparable_getPath_run. Qed.

Lemma Preparable_getters_panic (p : Preparable.t) :
  Preparable.SysFolder p = "" ->
  Preparable.getPidPath p = Panic /\ Preparable.getOutPath p = Panic /\
  Preparable.getErrPath p = Panic.
Proof.
  intros E. repeat split; run_getter (Preparable_getBinPath_panic p E).
Qed.

Lemma BinaryPreparable_getters_panic (p : BinaryPreparable.t) :
  BinaryPreparable.SysFolder p = "" ->
  BinaryPreparable.getPidPath p = Panic /\
  BinaryPreparable.getOutPath p = Panic /\
  BinaryPreparable.getErrPath p = Panic.
Proof.
  intros E. repeat split; run_getter (BinaryPreparable_getPath_panic p E).
Qed.

Lemma TrimSuffix_no_slash (s : string) :
  HasSuffix s "/" = false -> TrimSuffix s "/" = s.
Proof. unfold TrimSuffix. by intros ->. Qed.

Lemma append_nonempty (s t : string) : t <> "" -> s +:+ t <> "".
Proof. by destruct s. Qed.
(** ** Claims about path derivation and the source-build variant *)

(** C10: the source-build PrepareBin indexes the last byte of SourcePath and
    every derivation that goes through getPath indexes the last byte of
    SysFolder, with no emptiness guard: with an empty SourcePath the
    source-build PrepareBin panics, and with an empty SysFolder getPath,
    getPidPath, getOutPath and getErrPath of both variants, the source-build
    getBinPath and PrepareBin of both variants panic.  For getPath and the
    source-build PrepareBin emptiness is the only cause of a panic. *)
Theorem empty_path_fields_panic `{Externals}
    (p : Preparable.t) (b : BinaryPreparable.t) (w : World) :
  (Preparable.SourcePath p = "" \/ Preparable.SysFolder p = ""
     <-> Preparable.PrepareBin p = Panic) /\
  (Preparable.SysFolder p = "" <-> Preparable.getPath p = Panic) /\
  (Preparable.SysFolder p = "" ->
     Preparable.getBinPath p = Panic /\ Preparable.getPidPath p = Panic /\
     Preparable.getOutPath p = Panic /\ Preparable.getErrPath p = Panic) /\
  (BinaryPreparable.SysFolder b = "" <-> BinaryPreparable.getPath b = Panic) /\
  (BinaryPreparable.SysFolder b = "" ->
     BinaryPreparable.getPidPath b = Panic /\
     BinaryPreparable.getOutPath b = Panic /\
     BinaryPreparable.getErrPath b = Panic /\
     BinaryPreparable.PrepareBin (b, w) = Panic).
Proof.
  repeat apply conj.
  - apply Preparable_PrepareBin_panic.
  - intros P.
    destruct (decide (Preparable.SourcePath p = "")) as [|Nsrc]; [by left |].
    destruct (decide (Preparable.SysFolder p = "")) as [|Nsys]; [by right |].
    pose proof (Preparable_PrepareBin_run p Nsrc Nsys) as R. simpl in R.
    by rewrite R in P.
  - apply Preparable_getPath_panic.
  - intros P. destruct (decide (Preparable.SysFolder p = "")) as [|N]; [done |].
    by rewrite (Preparable_getPath_run p N) in P.
  - intros E. split; [by apply Preparable_getBinPath_panic |].
    by apply Preparable_getters_panic.
  - apply BinaryPreparable_getPath_panic.
  - intros P.
    destruct (decide (BinaryPreparable.SysFolder b = "")) as [|N]; [done |].
    by rewrite (BinaryPreparable_getPath_run b N) in P.
  - intros E.
    destruct (BinaryPreparable_getters_panic b E) as (Pp & Po & Pe).
    repeat split; try done.
    unfold BinaryPreparable.PrepareBin.
    cbv beta iota delta [bind on_desc]. simpl. by rewrite Po.
Qed.

Lemma empty_path_fields_panic_witness :
  Preparable.PrepareBin (H := scenario_externals)
    (Preparable.mk "n" "" "" "" "/sys" "go" false [] []) = Panic /\
  BinaryPreparable.PrepareBin (H := scenario_externals)
    (BinaryPreparable.mk "n" "" "" "" "" "" "" false [] [], empty_world)
    = Panic.
Proof.
  pose proof (empty_path_fields_panic (H := scenario_externals)
    (Preparable.mk "n" "" "" "" "/sys" "go" false [] [])
    (BinaryPreparable.mk "n" "" "" "" "" "" "" false [] [])
    empty_world) as (P1 & _ & _ & _ & P5).
  split.
  - apply P1. left. reflexivity.
  - apply P5. reflexivity.
Defined.

(** C8: the derivations are not stable across repeated calls.  getPath
    stores the trimmed SysFolder back into the descriptor, so with
    SysFolder "/" the first call of getPidPath leaves an empty SysFolder
    behind and the second call panics; with "/a//" the two calls return
    different paths. *)
Theorem repeated_derivation_differs :
  let twice {S} (m : M S string) : M S (string * string) :=
    bind m (fun first => bind m (fun second => ret (first, second))) in
  returned (Preparable.getPidPath
              (Preparable.mk "n" "/src" "" "" "/" "go" false [] []))
    = Some "/n/n.pid" /\
  twice Preparable.getPidPath
    (Preparable.mk "n" "/src" "" "" "/" "go" false [] []) = Panic /\
  returned (BinaryPreparable.getPidPath
              (BinaryPreparable.mk "n" "" "" "" "/" "" "" false [] []))
    = Some "/n/n.pid" /\
  twice BinaryPreparable.getPidPath
    (BinaryPreparable.mk "n" "" "" "" "/" "" "" false [] []) = Panic /\
  returned (twice BinaryPreparable.getPidPath
              (BinaryPreparable.mk "n" "" "" "" "/a//" "" "" false [] []))
    = Some ("/a//n/n.pid", "/a/n/n.pid").
Proof. repeat split; vm_compute; reflexivity. Qed.
(** C7, as stated, fails: adding one separator to a SysFolder that already
    ends in one changes every derived path, since only one is trimmed. *)
Lemma trailing_separator_changes_paths :
  let p := Preparable.mk "n" "/src" "" "" "/a/" "go" false [] [] in
  let q := Preparable.set_SysFolder (Preparable.SysFolder p +:+ "/") p in
  let b := BinaryPreparable.mk "n" "" "" "" "/a/" "" "" false [] [] in
  let c := BinaryPreparable.set_SysFolder (BinaryPreparable.SysFolder b +:+ "/") b in
  returned (Preparable.getBinPath p) = Some "/a/n/n" /\
  returned (Preparable.getBinPath q) = Some "/a//n/n" /\
  returned (Preparable.getPidPath p) <> returned (Preparable.getPidPath q) /\
  returned (Preparable.getOutPath p) <> returned (Preparable.getOutPath q) /\
  returned (Preparable.getErrPath p) <> returned (Preparable.getErrPath q) /\
  returned (BinaryPreparable.getPidPath b) <> returned (BinaryPreparable.getPidPath c) /\
  returned (BinaryPreparable.getOutPath b) <> returned (BinaryPreparable.getOutPath c) /\
  returned (BinaryPreparable.getErrPath b) <> returned (BinaryPreparable.getErrPath c).
Proof. repeat split; vm_compute; congruence. Qed.

(** C7, amended: for a non-empty SysFolder that does not end in a separator,
    adding one trailing separator changes no derived path: every derivation
    and PrepareBin of both variants return the same result and leave the
    same descriptor behind.  The same holds for the SourcePath of the
    source-build variant. *)
Theorem one_trailing_separator_is_dropped `{Externals}
    (p : Preparable.t) (b : BinaryPreparable.t) (w : World) :
  (Preparable.SysFolder p <> "" ->
   HasSuffix (Preparable.SysFolder p) "/" = false ->
   let q := Preparable.set_SysFolder (Preparable.SysFolder p +:+ "/") p in
   Preparable.getPath q = Preparable.getPath p /\
   Preparable.getBinPath q = Preparable.getBinPath p /\
   Preparable.getPidPath q = Preparable.getPidPath p /\
   Preparable.getOutPath q = Preparable.getOutPath p /\
   Preparable.getErrPath q = Preparable.getErrPath p /\
   (Preparable.SourcePath p <> "" ->
    Preparable.PrepareBin q = Preparable.PrepareBin p)) /\
  (Preparable.SourcePath p <> "" ->
   HasSuffix (Preparable.SourcePath p) "/" = false ->
   Preparable.SysFolder p <> "" ->
   Preparable.PrepareBin
     (Preparable.set_SourcePath (Preparable.SourcePath p +:+ "/") p)
   = Preparable.PrepareBin p) /\
  (BinaryPreparable.SysFolder b <> "" ->
   HasSuffix (BinaryPreparable.SysFolder b) "/" = false ->
   let c := BinaryPreparable.set_SysFolder
              (BinaryPreparable.SysFolder b +:+ "/") b in
   BinaryPreparable.getPath c = BinaryPreparable.getPath b /\
   BinaryPreparable.getPidPath c = BinaryPreparable.getPidPath b /\
   BinaryPreparable.getOutPath c = BinaryPreparable.getOutPath b /\
   BinaryPreparable.getErrPath c = BinaryPreparable.getErrPath b /\
   BinaryPreparable.PrepareBin (c, w) = BinaryPreparable.PrepareBin (b, w)).
Proof.
  repeat apply conj.
  - intros N S q.
    assert (Preparable.SysFolder q <> "") as Nq by (by apply append_nonempty).
    assert (workloadDir (Preparable.SysFolder q) (Preparable.Name q)
            = workloadDir (Preparable.SysFolder p) (Preparable.Name p)) as W.
    { unfold workloadDir. simpl.
      by rewrite TrimSuffix_snoc_slash, TrimSuffix_no_slash. }
    assert (Preparable.set_SysFolder (TrimSuffix (Preparable.SysFolder q) "/") q
            = Preparable.set_SysFolder
                (TrimSuffix (Preparable.SysFolder p) "/") p) as St.
    { simpl. by rewrite TrimSuffix_snoc_slash, TrimSuffix_no_slash. }
    rewrite (Preparable_getPath_run q Nq), (Preparable_getPath_run p N),
      (Preparable_getBinPath_run q Nq), (Preparable_getBinPath_run p N),
      (Preparable_getPidPath_run q Nq), (Preparable_getPidPath_run p N),
      (Preparable_getOutPath_run q Nq), (Preparable_getOutPath_run p N),
      (Preparable_getErrPath_run q Nq), (Preparable_getErrPath_run p N).
    rewrite W, St. repeat split.
    intros Ns.
    pose proof (Preparable_PrepareBin_run p Ns N) as Rp.
    pose proof (Preparable_PrepareBin_run q Ns Nq) as Rq.
    simpl in Rp, Rq. rewrite Rp, Rq.
    rewrite TrimSuffix_snoc_slash, (TrimSuffix_no_slash _ S).
    unfold workloadDir. by rewrite TrimSuffix_snoc_slash, (TrimSuffix_no_slash _ S).
  - intros Ns S N.
    pose proof (Preparable_PrepareBin_run p Ns N) as Rp.
    pose proof (Preparable_PrepareBin_run
                  (Preparable.set_SourcePath (Preparable.SourcePath p +:+ "/") p)
                  (append_nonempty _ "/" ltac:(done)) N) as Rq.
    simpl in Rp, Rq. rewrite Rp, Rq.
    by rewrite TrimSuffix_snoc_slash, (TrimSuffix_no_slash _ S).
  - intros N S c.
    assert (BinaryPreparable.SysFolder c <> "") as Nc
      by (by apply append_nonempty).
    assert (workloadDir (BinaryPreparable.SysFolder c) (BinaryPreparable.Name c)
            = workloadDir (BinaryPreparable.SysFolder b)
                (BinaryPreparable.Name b)) as W.
    { unfold workloadDir. simpl.
      by rewrite TrimSuffix_snoc_slash, TrimSuffix_no_slash. }
    assert (BinaryPreparable.set_SysFolder
              (TrimSuffix (BinaryPreparable.SysFolder c) "/") c
            = BinaryPreparable.set_SysFolder
                (TrimSuffix (BinaryPreparable.SysFolder b) "/") b) as St.
    { simpl. by rewrite TrimSuffix_snoc_slash, TrimSuffix_no_slash. }
    assert (BinaryPreparable.getOutPath c = BinaryPreparable.getOutPath b) as Eo.
    { rewrite (BinaryPreparable_getOutPath_run c Nc),
        (BinaryPreparable_getOutPath_run b N). by rewrite W, St. }
    rewrite (BinaryPreparable_getPath_run c Nc),
      (BinaryPreparable_getPath_run b N),
      (BinaryPreparable_getPidPath_run c Nc),
      (BinaryPreparable_getPidPath_run b N),
      (BinaryPreparable_getErrPath_run c Nc),
      (BinaryPreparable_getErrPath_run b N).
    rewrite W, St. repeat split; [done |].
    unfold BinaryPreparable.PrepareBin, bind at 1 3, on_desc at 1 5.
    simpl. by rewrite Eo.
Qed.
Lemma one_trailing_separator_is_dropped_witness :
  let p := Preparable.mk "n" "/src" "" "" "/a" "go" false [] [] in
  let b := BinaryPreparable.mk "n" "" "" "bundle" "/a" "" "" false [] [] in
  Preparable.getPidPath (Preparable.set_SysFolder "/a/" p)
    = Preparable.getPidPath p /\
  Preparable.PrepareBin (H := scenario_externals)
      (Preparable.set_SourcePath "/src/" p)
    = Preparable.PrepareBin (H := scenario_externals) p /\
  BinaryPreparable.PrepareBin (H := scenario_externals)
      (BinaryPreparable.set_SysFolder "/a/" b, empty_world)
    = BinaryPreparable.PrepareBin (H := scenario_externals) (b, empty_world).
Proof.
  intros p b.
  destruct (one_trailing_separator_is_dropped (H := scenario_externals)
              p b empty_world) as (A & B & C).
  split; [| split].
  - apply A; [discriminate | reflexivity].
  - apply B; [discriminate | reflexivity | discriminate].
  - apply C; [discriminate | reflexivity].
Defined.

(** C6: for a source-build descriptor whose SourcePath ends in '/' (and
    whose SysFolder is not empty), when the toolchain invocation fails,
    PrepareBin returns the captured output with that error, and the command
    is sysFolder/name/name all the same: the descriptor PrepareBin leaves
    behind does not depend on what the toolchain did. *)
Theorem failed_build_still_resolves_command `{Externals}
    (p : Preparable.t) (body out : string) (e : error) :
  Preparable.SourcePath p = body +:+ "/" ->
  Preparable.SysFolder p <> "" ->
  let bin := workloadDir (Preparable.SysFolder p) (Preparable.Name p)
               +:+ "/" +:+ Preparable.Name p in
  let invocation := Preparable.build_command (Preparable.Language p) bin body in
  exec_output (fst invocation) (snd invocation) = (out, Some e) ->
  exists p',
    Preparable.PrepareBin p = Done (out, Some e) p' /\
    Preparable.Cmd p' = bin /\
    Preparable.SourcePath p' = body /\
    forall other : Externals,
      state_after (Preparable.PrepareBin (H := other) p) = Some p'.
Proof.
  intros Es Ny bin invocation Ex.
  assert (Preparable.SourcePath p <> "") as Ns
    by (rewrite Es; by apply append_nonempty).
  assert (TrimSuffix (Preparable.SourcePath p) "/" = body) as Et
    by (rewrite Es; apply TrimSuffix_snoc_slash).
  eexists. split; [| split; [| split]].
  - pose proof (Preparable_PrepareBin_run p Ns Ny) as R. simpl in R.
    rewrite R, Et. fold bin. fold invocation. rewrite Ex. reflexivity.
  - reflexivity.
  - reflexivity.
  - intros other.
    pose proof (Preparable_PrepareBin_run (H := other) p Ns Ny) as R.
    simpl in R. rewrite R. simpl. by rewrite Et.
Qed.

Lemma failed_build_still_resolves_command_witness :
  exists p',
    Preparable.PrepareBin (H := scenario_externals)
      (Preparable.mk "n" "/src/" "" "" "/sys/" "go" false [] [])
    = Done ("build failed", Some (LibError "exit status 1")) p' /\
    Preparable.Cmd p' = "/sys/n/n".
Proof.
  destruct (failed_build_still_resolves_command (H := scenario_externals)
              (Preparable.mk "n" "/src/" "" "" "/sys/" "go" false [] [])
              "/src" "build failed" (LibError "exit status 1"))
    as (p' & R & C & _); [reflexivity | discriminate | reflexivity |].
  exists p'. split; [exact R | exact C].
Defined.
(** ** The file system *)

Lemma mkdir_chain_keeps_files (dirs : list string) (fs fs' : gmap string node)
    (q : string) :
  mkdir_chain fs dirs = inr fs' -> is_file fs q -> is_file fs' q.
Proof.
  revert fs. induction dirs as [|d dirs IH]; intros fs E F; simpl in E.
  - by injection E as <-.
  - unfold stat in E. destruct (anchor d).
    + by apply (IH fs).
    + destruct (fs !! d) as [[|c]|] eqn:L; [by apply (IH fs) | done |].
      apply (IH _ E). destruct F as (c & F). exists c.
      rewrite lookup_insert_ne; [done |]. intros ->. congruence.
Qed.

Lemma MkdirAll_returns (path : string) (w : World) :
  exists r w', MkdirAll path w = Done r w' /\
    logs w' = logs w /\ held w' = held w /\
    forall q, is_file (files w) q -> is_file (files w') q.
Proof.
  unfold MkdirAll. destruct (String.eqb path ""); [by eauto 6 |].
  destruct (mkdir_chain _ _) as [e|fs] eqn:E; [by eauto 6 |].
  do 2 eexists. repeat split. intros q. by apply (mkdir_chain_keeps_files _ _ _ _ E).
Qed.

Lemma OpenFile_returns (path : string) (w : World) :
  exists r w', OpenFile path w = Done r w' /\
    logs w' = logs w /\ held w' = held w /\
    (forall q, is_file (files w) q -> is_file (files w') q) /\
    match r with
    | inl _ => w' = w
    | inr h => h = Clean path /\ path <> "" /\ anchor h = false /\
               files w' = <[h := IsFile ""]> (files w)
    end.
Proof.
  unfold OpenFile. destruct (String.eqb_spec path "") as [|N]; [by eauto 10 |].
  assert (forall q, is_file (files w) q ->
            is_file (<[Clean path := IsFile ""]> (files w)) q) as K.
  { intros q (c & F). destruct (decide (Clean path = q)) as [<-|Nq].
    - exists "". apply lookup_insert_eq.
    - exists c. by rewrite lookup_insert_ne. }
  unfold stat at 1. destruct (anchor (Clean path)) eqn:A; [by eauto 10 |].
  destruct (files w !! Clean path) as [[|c]|]; [by eauto 10 | by eauto 12 |].
  destruct (stat (files w) (Dir (Clean path))) as [[|c]|];
    [by eauto 12 | by eauto 10 | by eauto 10].
Qed.

Lemma Write_returns (h data : string) (w : World) :
  exists w', Write h data w = Done tt w' /\
    logs w' = logs w /\ held w' = held w /\
    (forall q, is_file (files w) q -> is_file (files w') q) /\
    (forall old, files w !! h = Some (IsFile old) ->
       files w' = <[h := IsFile (old +:+ data)]> (files w)).
Proof.
  unfold Write, modify. eexists. split; [reflexivity |].
  destruct (files w !! h) as [[|c]|] eqn:L; simpl;
    repeat split; try done.
  - intros q (c' & F). destruct (decide (h = q)) as [<-|Nq].
    + eexists. apply lookup_insert_eq.
    + exists c'. by rewrite lookup_insert_ne.
  - by intros old [= ->].
Qed.

(** What ioutil.WriteFile wrote is what a later read finds. *)
Lemma WriteFile_then_ReadFile (path data : string) (w w' : World) :
  WriteFile path data w = Done None w' ->
  ReadFile path w' = Done (inr data) w' /\
  logs w' = logs w /\ held w' = held w /\
  forall q, is_file (files w) q -> is_file (files w') q.
Proof.
  unfold WriteFile, bind. intros E.
  destruct (OpenFile_returns path w) as (r & w1 & O & L1 & H1 & K1 & R).
  rewrite O in E. destruct r as [e|h]; [done |].
  destruct R as (-> & N & A & F1).
  destruct (Write_returns (Clean path) data w1) as (w2 & W & L2 & H2 & K2 & F2).
  rewrite W in E. injection E as <-.
  specialize (F2 "" ltac:(rewrite F1; apply lookup_insert_eq)).
  repeat split; [| congruence | congruence | by auto].
  unfold ReadFile. destruct (String.eqb_spec path ""); [done |].
  unfold stat. rewrite A, F2, lookup_insert_eq. done.
Qed.

(** ** Cleaned paths *)

Lemma LastIndex_ge (s : string) (c : ascii) : -1 <= LastIndex s c.
Proof.
  induction s as [|x s IH]; simpl; [lia |].
  destruct (Z.leb_spec 0 (LastIndex s c)); [lia |].
  destruct (Ascii.eqb x c); lia.
Qed.

Lemma no_slash_cons (x : ascii) (s : string) :
  no_slash (String x s) <-> Ascii.eqb x slash = false /\ no_slash s.
Proof.
  unfold no_slash. simpl. pose proof (LastIndex_ge s slash).
  destruct (Z.leb_spec 0 (LastIndex s slash)); [lia |].
  destruct (Ascii.eqb x slash); split; intros; try lia; try done.
  all: try (split; [done | lia]).
  all: try (destruct H1; done).
Qed.

Lemma split_slash_nonempty (s : string) : split_slash s <> [].
Proof.
  destruct s as [|x s]; simpl; [done |].
  destruct (Ascii.eqb x slash); [done |]. by destruct (split_slash s).
Qed.

Lemma split_slash_no_slash (s : string) : Forall no_slash (split_slash s).
Proof.
  induction s as [|x s IH]; simpl.
  - by constructor.
  - destruct (Ascii.eqb x slash) eqn:E.
    + by constructor.
    + pose proof (split_slash_nonempty s) as Ns.
      destruct (split_slash s) as [|h t]; [done |].
      inversion IH; subst. constructor; [| done].
      by apply no_slash_cons.
Qed.

Lemma split_slash_of_elem (e : string) : no_slash e -> split_slash e = [e].
Proof.
  induction e as [|x e IH]; [done |].
  intros [E N]%no_slash_cons. simpl. by rewrite E, (IH N).
Qed.

(** Splitting at a separator. *)
Lemma split_slash_app (a b : string) :
  split_slash (a +:+ String slash b) =
  match split_slash b with
  | [] => split_slash a
  | _ => split_slash a ++ split_slash b
  end.
Proof.
  pose proof (split_slash_nonempty b) as Nb.
  destruct (split_slash b) as [|hb tb] eqn:Eb; [done |]. clear Nb.
  induction a as [|x a IH].
  - simpl. by rewrite Eb.
  - change (String x a +:+ String slash b)
      with (String x (a +:+ String slash b)).
    simpl. rewrite IH. destruct (Ascii.eqb x slash); [done |].
    pose proof (split_slash_nonempty a) as Na.
    by destruct (split_slash a).
Qed.

Lemma split_slash_join (l : list string) :
  l <> [] -> Forall no_slash l -> split_slash (join_slash l) = l.
Proof.
  induction l as [|e l IH]; [done | intros _ F].
  inversion F as [|? ? Ne Fl]; subst.
  destruct l as [|e' l].
  - simpl. by apply split_slash_of_elem.
  - change (join_slash (e :: e' :: l))
      with (e +:+ String slash (join_slash (e' :: l))).
    rewrite split_slash_app, (IH ltac:(done) Fl).
    by rewrite (split_slash_of_elem e Ne).
Qed.

Lemma clean_step_plain (r : bool) (acc : list string) (e : string) :
  plain e -> clean_step r acc e = e :: acc.
Proof.
  intros (N1 & N2 & N3 & _). unfold clean_step.
  destruct (String.eqb_spec e ""); [done |].
  destruct (String.eqb_spec e "."); [done |].
  destruct (String.eqb_spec e ".."); done.
Qed.

Lemma clean_step_cleaned (r : bool) (acc : list string) (e : string) :
  no_slash e -> cleaned r acc -> cleaned r (clean_step r acc e).
Proof.
  intros Ne (ns & ds & -> & Fn & Fd & R).
  destruct (decide (e = "")) as [->|N1]; [by exists ns, ds |].
  destruct (decide (e = ".")) as [->|N2]; [by exists ns, ds |].
  destruct (decide (e = "..")) as [->|N3].
  - unfold clean_step. simpl.
    destruct ns as [|hd ns]; simpl.
    + destruct ds as [|d ds].
      * destruct r; [by exists [], [] |].
        exists [], [".."]. repeat split; try done. by repeat constructor.
      * inversion Fd; subst. simpl.
        exists [], (".." :: ".." :: ds). repeat split; try done.
        -- by repeat constructor.
        -- intros Hr. by specialize (R Hr).
    + inversion Fn as [|? ? Pn Fn']; subst.
      destruct (String.eqb_spec hd "..") as [->|];
        [by destruct Pn as (_&_&?&_) |].
      by exists ns, ds.
  - rewrite clean_step_plain by done. exists (e :: ns), ds.
    repeat split; [| done | done]. by constructor.
Qed.

Lemma fold_clean_cleaned (r : bool) (l acc : list string) :
  Forall no_slash l -> cleaned r acc ->
  cleaned r (fold_left (clean_step r) l acc).
Proof.
  revert acc. induction l as [|e l IH]; intros acc F C; [done |].
  inversion F; subst. simpl. apply IH; [done |].
  by apply clean_step_cleaned.
Qed.

Lemma fold_clean_plain (r : bool) (l acc : list string) :
  Forall plain l -> fold_left (clean_step r) l acc = rev l ++ acc.
Proof.
  revert acc. induction l as [|e l IH]; intros acc F; [done |].
  inversion F; subst. simpl. rewrite clean_step_plain by done.
  rewrite IH by done. by rewrite <- app_assoc.
Qed.

Lemma fold_clean_dots (l acc : list string) :
  Forall (fun e => e = "..") l -> Forall (fun e => e = "..") acc ->
  fold_left (clean_step false) l acc = rev l ++ acc.
Proof.
  revert acc. induction l as [|e l IH]; intros acc F A; [done |].
  inversion F; subst. simpl.
  assert (clean_step false acc ".." = ".." :: acc) as ->.
  { destruct acc as [|a acc]; [done |]. by inversion A; subst. }
  rewrite IH; [by rewrite <- app_assoc | done | by constructor].
Qed.

(** Cleaning the elements of a cleaned path changes nothing. *)
Lemma fold_clean_again (r : bool) (acc : list string) :
  cleaned r acc -> fold_left (clean_step r) (rev acc) [] = acc.
Proof.
  intros (ns & ds & -> & Fn & Fd & R).
  rewrite rev_app_distr, fold_left_app.
  destruct r.
  - rewrite (R eq_refl) in *. simpl. rewrite fold_clean_plain
      by (by apply List.Forall_rev).
    by rewrite rev_involutive.
  - rewrite (fold_clean_dots (rev ds) []) by
      (try apply List.Forall_rev; done).
    rewrite fold_clean_plain by (by apply List.Forall_rev).
    by rewrite !rev_involutive, app_nil_r.
Qed.

Lemma cleaned_no_slash (r : bool) (acc : list string) :
  cleaned r acc -> Forall no_slash (rev acc) /\
  Forall (fun e => e <> "") (rev acc).
Proof.
  intros (ns & ds & -> & Fn & Fd & R).
  split; apply List.Forall_rev; apply Forall_app; split.
  - eapply Forall_impl; [exact Fn |]. by intros e (_&_&_&?).
  - eapply Forall_impl; [exact Fd |]. by intros e ->.
  - eapply Forall_impl; [exact Fn |]. by intros e (?&_).
  - eapply Forall_impl; [exact Fd |]. by intros e ->.
Qed.

Lemma rooted_join (e : string) (l : list string) :
  e <> "" -> no_slash e -> rooted (join_slash (e :: l)) = false.
Proof.
  intros N S. destruct e as [|x e]; [done |].
  apply no_slash_cons in S as [E _]. by destruct l.
Qed.

Lemma join_slash_empty (l : list string) :
  Forall (fun e => e <> "") l -> join_slash l = "" -> l = [].
Proof.
  destruct l as [|e l]; [done |]. intros F.
  inversion F; subst. destruct e; [done |]. by destruct l.
Qed.

Lemma Clean_form (p : string) :
  p <> "" ->
  exists acc, cleaned (rooted p) acc /\
    Clean p = if rooted p then "/" +:+ join_slash (rev acc)
              else if String.eqb (join_slash (rev acc)) "" then "."
                   else join_slash (rev acc).
Proof.
  intros N. exists (fold_left (clean_step (rooted p)) (split_slash p) []).
  split.
  - apply fold_clean_cleaned; [apply split_slash_no_slash |]. by exists [], [].
  - unfold Clean. by destruct (String.eqb_spec p "").
Qed.

(** filepath.Clean is idempotent. *)
Lemma Clean_idempotent (p : string) : Clean (Clean p) = Clean p.
Proof.
  destruct (decide (p = "")) as [->|N]; [reflexivity |].
  destruct (Clean_form p N) as (acc & C & ->).
  destruct (cleaned_no_slash _ _ C) as (Fs & Fe).
  pose proof (fold_clean_again _ _ C) as Again.
  destruct (rooted p) eqn:R.
  - change ("/" +:+ join_slash (rev acc))
      with ("" +:+ String slash (join_slash (rev acc))).
    unfold Clean.
    replace (rooted ("" +:+ String slash (join_slash (rev acc)))) with true
      by done.
    replace (String.eqb ("" +:+ String slash (join_slash (rev acc))) "")
      with false by done.
    rewrite split_slash_app.
    pose proof (split_slash_nonempty (join_slash (rev acc))) as Nj.
    destruct (rev acc) as [|e l] eqn:El; [done |].
    rewrite split_slash_join by done. cbv beta iota.
    change (split_slash "") with [""]. rewrite fold_left_app.
    change (fold_left (clean_step true) [""] []) with (@nil string).
    by rewrite Again, El.
  - destruct (String.eqb_spec (join_slash (rev acc)) "") as [J|J];
      [reflexivity |].
    destruct (rev acc) as [|e l] eqn:El; [done |].
    pose proof (proj1 (Forall_cons _ _ _) Fs) as [S1 _].
    pose proof (proj1 (Forall_cons _ _ _) Fe) as [E1 _].
    unfold Clean. destruct (String.eqb_spec (join_slash (e :: l)) ""); [done |].
    rewrite rooted_join by done.
    rewrite split_slash_join by done.
    rewrite Again, El.
    by destruct (String.eqb_spec (join_slash (e :: l)) "").
Qed.
Lemma append_assoc (a b c : string) : (a +:+ b) +:+ c = a +:+ (b +:+ c).
Proof.
  induction a as [|x a IH]; [done |].
  change (String x ((a +:+ b) +:+ c) = String x (a +:+ (b +:+ c))).
  by rewrite IH.
Qed.

Lemma rooted_append (a b : string) :
  rooted (a +:+ String slash b) =
  match a with EmptyString => true | _ => rooted a end.
Proof. by destruct a. Qed.

(** A doubled separator does not change the cleaned path. *)
Lemma Clean_double_slash (a b : string) :
  Clean (a +:+ String slash (String slash b)) = Clean (a +:+ String slash b).
Proof.
  unfold Clean.
  assert (forall t, String.eqb (a +:+ String slash t) "" = false) as E
    by (intros t; by destruct a).
  rewrite !E, !rooted_append.
  assert (fold_left (clean_step (match a with EmptyString => true | _ => rooted a end))
            (split_slash (a +:+ String slash (String slash b))) []
          = fold_left (clean_step (match a with EmptyString => true | _ => rooted a end))
              (split_slash (a +:+ String slash b)) []) as ->; [| done].
  rewrite !split_slash_app.
  pose proof (split_slash_nonempty b) as Nb.
  change (split_slash (String slash b)) with ("" :: split_slash b).
  destruct (split_slash b) as [|e l]; [done |].
  rewrite !fold_left_app. done.
Qed.

Lemma Clean_TrimSuffix (s r : string) :
  s <> "" ->
  Clean (TrimSuffix s "/" +:+ String slash r) = Clean (s +:+ String slash r).
Proof.
  intros N. destruct (string_snoc s N) as (body & c & ->).
  pose proof (trim_if_last_slash _ _ (index_last_snoc body c)) as T.
  destruct (Ascii.eqb_spec c slash) as [->|Nc].
  - change (body +:+ String slash "") with (body +:+ "/").
    rewrite TrimSuffix_snoc_slash, append_assoc.
    change ("/" +:+ String slash r) with (String slash (String slash r)).
    by rewrite Clean_double_slash.
  - by rewrite <- T.
Qed.
Lemma Clean_Join (a b : string) : Join a b <> "" -> Clean (Join a b) = Join a b.
Proof.
  unfold Join. destruct (negb (String.eqb a ""));
    [intros _; apply Clean_idempotent |].
  destruct (negb (String.eqb b "")); [intros _; apply Clean_idempotent | done].
Qed.

(** ** Archive extraction *)

Section UnzipProperties.
Context `{Externals}.



(** When extraction returns no error, every file entry of the archive is a
    regular file at filepath.Join(dest, name), whatever the name is; files
    that were there are still files; nothing is logged. *)
Lemma unzip_entries_done (dest : string) (entries : list ZipFile)
    (w w' : World) :
  unzip_entries dest entries w = Done None w' ->
  logs w' = logs w /\ held w' = held w /\
  (forall q, is_file (files w) q -> is_file (files w') q) /\
  (forall f, f ∈ entries -> zIsDir f = false ->
     is_file (files w') (Join dest (zName f))).
Proof.
  revert w. induction entries as [|f rest IH]; intros w E.
  - injection E as <-. repeat split; [done |]. by intros f Hf%elem_of_nil.
  - simpl in E. destruct (zOpen f) as [e|] eqn:O; [done |].
    destruct (zIsDir f) eqn:D; unfold bind in E.
    + destruct (MkdirAll_returns (Join dest (zName f)) w)
        as (r & w1 & M & L1 & H1 & K1).
      rewrite M in E. destruct (IH _ E) as (L & Hd & K & F).
      repeat split; [congruence | congruence | by auto |].
      intros g [->|Hg]%elem_of_cons Dg; [congruence | by auto].
    + destruct (MkdirAll_returns
                  (if -1 <? LastIndex (Join dest (zName f)) slash
                   then slice (Join dest (zName f)) 0
                          (LastIndex (Join dest (zName f)) slash)
                   else "") w) as (r & w1 & M & L1 & H1 & K1).
      rewrite M in E. destruct r as [e|]; [done |].
      destruct (OpenFile_returns (Join dest (zName f)) w1)
        as (o & w2 & Op & L2 & H2 & K2 & R).
      rewrite Op in E. destruct o as [e|h]; [done |].
      destruct R as (-> & Nj & A & F2).
      rewrite Clean_Join in * by done.
      destruct (Write_returns (Join dest (zName f)) (zData f) w2)
        as (w3 & Wr & L3 & H3 & K3 & _).
      rewrite Wr in E. destruct (zReadErr f); [done |].
      destruct (IH _ E) as (L & Hd & K & F).
      repeat split; [congruence | congruence | by auto |].
      intros g [->|Hg]%elem_of_cons Dg; [| by auto].
      apply K, K3. rewrite F2. exists "". apply lookup_insert_eq.
Qed.

(** The same for Unzip, which first opens the archive at [src]. *)
Lemma Unzip_done (src dest : string) (w w' : World) :
  Unzip src dest w = Done None w' ->
  exists bytes entries,
    ReadFile src w = Done (inr bytes) w /\
    zip_entries bytes = inr entries /\
    logs w' = logs w /\ held w' = held w /\
    (forall q, is_file (files w) q -> is_file (files w') q) /\
    (forall f, f ∈ entries -> zIsDir f = false ->
       is_file (files w') (Join dest (zName f))).
Proof.
  unfold Unzip, zip_OpenReader, bind. intros E.
  assert (exists r, ReadFile src w = Done r w) as (r & Rd).
  { unfold ReadFile. destruct (String.eqb src ""); [by eauto |].
    destruct (stat _ _) as [[|c]|]; by eauto. }
  rewrite Rd in E. destruct r as [e|bytes]; [done |].
  unfold ret in E. destruct (zip_entries bytes) as [e|entries] eqn:Z; [done |].
  exists bytes, entries. split; [done |]. split; [done |].
  by apply unzip_entries_done.
Qed.

End UnzipProperties.
(** ** The binary-bundle PrepareBin *)

Lemma bind_Done_inv {S A B} (m : M S A) (k : A -> M S B) (s s' : S) (r : B) :
  bind m k s = Done r s' -> exists a s1, m s = Done a s1 /\ k a s1 = Done r s'.
Proof. unfold bind. destruct (m s) as [a s1| | |]; [by eauto | done..]. Qed.

Lemma on_desc_Done_inv {D A} (m : M D A) (d : D) (w : World) (a : A)
    (s1 : D * World) :
  on_desc m (d, w) = Done a s1 -> exists d1, m d = Done a d1 /\ s1 = (d1, w).
Proof.
  unfold on_desc. simpl. destruct (m d) as [a' d1| | |]; [| done..].
  intros [= -> <-]. by eauto.
Qed.

Lemma on_world_Done_inv {D A} (m : M World A) (d : D) (w : World) (a : A)
    (s1 : D * World) :
  on_world m (d, w) = Done a s1 -> exists w1, m w = Done a w1 /\ s1 = (d, w1).
Proof.
  unfold on_world. simpl. destruct (m w) as [a' w1| | |]; [| done..].
  intros [= -> <-]. by eauto.
Qed.

Lemma BinaryPreparable_getPath_Done (p p' : BinaryPreparable.t) (r : string) :
  BinaryPreparable.getPath p = Done r p' ->
  BinaryPreparable.SysFolder p <> "" /\
  r = BinaryPreparable.SysFolder p' +:+ "/" +:+ BinaryPreparable.Name p' /\
  p' = BinaryPreparable.set_SysFolder
         (TrimSuffix (BinaryPreparable.SysFolder p) "/") p.
Proof.
  intros E. destruct (decide (BinaryPreparable.SysFolder p = "")) as [Z|N].
  - by rewrite (BinaryPreparable_getPath_panic p Z) in E.
  - rewrite (BinaryPreparable_getPath_run p N) in E. injection E as <- <-.
    done.
Qed.

Lemma MkdirAll_Done (path : string) (w w1 : World) (r : option error) :
  MkdirAll path w = Done r w1 ->
  logs w1 = logs w /\ held w1 = held w /\
  forall q, is_file (files w) q -> is_file (files w1) q.
Proof.
  destruct (MkdirAll_returns path w) as (r' & w' & -> & K).
  by intros [= <- <-].
Qed.

Ltac step E :=
  let a := fresh "a" in let s := fresh "s" in let E1 := fresh "E" in
  apply bind_Done_inv in E as (a & s & E1 & E).

Ltac step_desc E :=
  let a := fresh "a" in let s := fresh "s" in let E1 := fresh "G" in
  let d := fresh "d" in
  apply bind_Done_inv in E as (a & s & E1 & E);
  apply on_desc_Done_inv in E1 as (d & E1 & ->).

Ltac step_world E :=
  let a := fresh "a" in let s := fresh "s" in let E1 := fresh "W" in
  let w := fresh "w" in
  apply bind_Done_inv in E as (a & s & E1 & E);
  apply on_world_Done_inv in E1 as (w & E1 & ->).

Section BundleProperties.
Context `{Externals}.

Lemma PrepareBin_success (b b' : BinaryPreparable.t) (w w' : World)
    (out : string) :
  BinaryPreparable.PrepareBin (b, w) = Done (out, None) (b', w') ->
  exists decoded entries,
    base64_decode (BinaryPreparable.BZipFile b) = inr decoded /\
    zip_entries decoded = inr entries /\
    out = "" /\
    BinaryPreparable.Name b' = BinaryPreparable.Name b /\
    BinaryPreparable.SysFolder b' =
      TrimSuffix (TrimSuffix (TrimSuffix (TrimSuffix
        (BinaryPreparable.SysFolder b) "/") "/") "/") "/" /\
    BinaryPreparable.Cmd b' =
      (BinaryPreparable.SysFolder b' +:+ "/" +:+ BinaryPreparable.Name b')
        +:+ "/runtime/bootstrap" /\
    logs w' = logs w /\
    forall f, f ∈ entries -> zIsDir f = false ->
      is_file (files w')
        (Clean ((BinaryPreparable.SysFolder b' +:+ "/" +:+
                 BinaryPreparable.Name b') +:+ "/runtime" +:+ "/" +:+ zName f)).
Proof.
  unfold BinaryPreparable.PrepareBin. intros E.
  step_desc E. step_world E. destruct a0 as [e|]; [done |].
  step_desc E. step_world E. destruct a1 as [e|]; [done |].
  step_desc E. step_desc E.
  destruct (base64_decode a2) as [e|decoded] eqn:B64.
  { step_world E. done. }
  step_desc E. step_world E. destruct a4 as [e|].
  { step_world E. done. }
  step_world E. step E. step_desc E. step_desc E.
  injection E as <- -> <- <-.
  injection E0 as <- <-. simpl in *.
  unfold BinaryPreparable.getOutPath in G. step G. step G.
  injection G as <- <-. injection E0 as <- <-.
  apply BinaryPreparable_getPath_Done in E as (N0 & _ & ->).
  apply BinaryPreparable_getPath_Done in G0 as (N1 & -> & ->).
  injection G1 as <- <-. injection G2 as <- <-.
  apply BinaryPreparable_getPath_Done in G3 as (N2 & -> & ->).
  apply BinaryPreparable_getPath_Done in G4 as (N3 & -> & ->).
  injection G5 as <- <-. simpl in *.
  apply MkdirAll_Done in W as (L0 & _). apply MkdirAll_Done in W0 as (L1 & _).
  apply WriteFile_then_ReadFile in W1 as (Rd & L2 & _).
  apply Unzip_done in W2 as (bytes & entries & Rd' & Z & L3 & _ & _ & F).
  rewrite Rd in Rd'. injection Rd' as <-.
  exists decoded, entries. repeat split; try done.
  - congruence.
  - intros f Hf Df. specialize (F f Hf Df). unfold Join in F.
    set (s2 := TrimSuffix (TrimSuffix (BinaryPreparable.SysFolder b) "/") "/")
      in *.
    set (n := BinaryPreparable.Name b) in *.
    assert (String.eqb ((s2 +:+ "/" +:+ n) +:+ "/runtime") "" = false) as Ne
      by (by destruct s2).
    rewrite Ne in F. simpl negb in F. cbv iota in F.
    rewrite !append_assoc in *.
    change ("/" +:+ n +:+ "/runtime" +:+ "/" +:+ zName f)
      with (String slash (n +:+ "/runtime" +:+ "/" +:+ zName f)) in *.
    by rewrite !Clean_TrimSuffix.
Qed.

End BundleProperties.
(** ** Claims about archive extraction *)

Lemma unzip_escape_run :
  exists w',
    Unzip (H := scenario_externals) "/sys/n/function.zip" "/sys/n/runtime"
      (staged "escape") = Done None w' /\
    files w' !! "/sys/etc/passwd" = Some (IsFile "root").
Proof. eexists. split; vm_compute; reflexivity. Defined.

(** C1, as stated, fails: an entry named ../../etc/passwd is not rejected.
    Unzip returns no error and the file is written at /sys/etc/passwd,
    outside the destination root /sys/n/runtime. *)
Lemma unzip_writes_outside_destination :
  exists w',
    Unzip (H := scenario_externals) "/sys/n/function.zip" "/sys/n/runtime"
      (staged "escape") = Done None w' /\
    files (staged "escape") !! "/sys/etc/passwd" = None /\
    files w' !! "/sys/etc/passwd" = Some (IsFile "root") /\
    Join "/sys/n/runtime" "../../etc/passwd" = "/sys/etc/passwd" /\
    String.prefix "/sys/n/runtime/" "/sys/etc/passwd" = false.
Proof.
  destruct unzip_escape_run as (w' & U & F). exists w'.
  repeat split; try done.
Qed.

(** C1, amended: Unzip rejects no entry for its name.  Whenever the
    extraction of an archive returns no error, every file entry of the
    archive is a regular file at filepath.Join(dest, name), be that path
    under the destination root or not. *)
Theorem unzip_writes_at_joined_path `{Externals}
    (src dest bytes : string) (entries : list ZipFile) (f : ZipFile)
    (w w' : World) :
  ReadFile src w = Done (inr bytes) w ->
  zip_entries bytes = inr entries ->
  f ∈ entries -> zIsDir f = false ->
  Unzip src dest w = Done None w' ->
  is_file (files w') (Join dest (zName f)).
Proof.
  intros Rd Z Hf Df U.
  destruct (Unzip_done _ _ _ _ U) as (bytes' & entries' & Rd' & Z' & _ & _ & _ & F).
  rewrite Rd in Rd'. injection Rd' as <-. rewrite Z in Z'. injection Z' as <-.
  by apply F.
Qed.

Lemma unzip_writes_at_joined_path_witness :
  exists w',
    Unzip (H := scenario_externals) "/sys/n/function.zip" "/sys/n/runtime"
      (staged "escape") = Done None w' /\
    is_file (files w') (Join "/sys/n/runtime" "../../etc/passwd").
Proof.
  destruct unzip_escape_run as (w' & U & _).
  exists w'. split; [exact U |].
  apply (unzip_writes_at_joined_path (H := scenario_externals)
           "/sys/n/function.zip" "/sys/n/runtime" "escape"
           [mkZipFile "../../etc/passwd" false None "root" None]
           (mkZipFile "../../etc/passwd" false None "root" None)
           (staged "escape") w').
  - reflexivity.
  - reflexivity.
  - apply elem_of_cons. by left.
  - reflexivity.
  - exact U.
Defined.

(** C2: not every failure inside Unzip comes back as an error value.  With
    the entries a (a file) and a/b, making the parent directory of a/b
    fails and Unzip ends the process through log.Fatal.  With the entries
    a (a file), a (a directory) and c, making the directory a fails, the
    error is dropped and extraction goes on to c and returns nil. *)
Theorem unzip_failure_neither_returned_nor_stopping :
  (exists w',
     Unzip (H := scenario_externals) "/sys/n/function.zip" "/sys/n/runtime"
       (staged "nested") = Fatal w' /\
     logs w' = [LogFatal (PathError "mkdir" "/sys/n/runtime/a" ENOTDIR)]) /\
  (exists w1 w',
     unzip_entries "/sys/n/runtime" [mkZipFile "a" false None "x" None]
       (staged "shadowed") = Done None w1 /\
     returned (MkdirAll (Join "/sys/n/runtime" "a") w1)
       = Some (Some (PathError "mkdir" "/sys/n/runtime/a" ENOTDIR)) /\
     Unzip (H := scenario_externals) "/sys/n/function.zip" "/sys/n/runtime"
       (staged "shadowed") = Done None w' /\
     files w' !! "/sys/n/runtime/a" = Some (IsFile "x") /\
     files w' !! "/sys/n/runtime/c" = Some (IsFile "z")).
Proof.
  split.
  - eexists. split; vm_compute; reflexivity.
  - do 2 eexists. split; [vm_compute; reflexivity |].
    repeat split; vm_compute; reflexivity.
Qed.
(** ** Claims about the binary-bundle PrepareBin *)

Ltac step_world_as E W a :=
  let s := fresh "s" in let w := fresh "w" in
  apply bind_Done_inv in E as (a & s & W & E);
  apply on_world_Done_inv in W as (w & W & ->).

Ltac step_desc_as E G a :=
  let s := fresh "s" in let d := fresh "d" in
  apply bind_Done_inv in E as (a & s & G & E);
  apply on_desc_Done_inv in G as (d & G & ->).

Section BundleErrors.
Context `{Externals}.

Lemma unzip_entries_logs (dest : string) (entries : list ZipFile)
    (w w' : World) (r : option error) :
  unzip_entries dest entries w = Done r w' -> logs w' = logs w.
Proof.
  revert w. induction entries as [|f rest IH]; intros w E.
  - by injection E as <- <-.
  - simpl in E. destruct (zOpen f) as [e|]; [by injection E as <- <- |].
    destruct (zIsDir f); unfold bind in E.
    + destruct (MkdirAll_returns (Join dest (zName f)) w)
        as (r1 & w1 & M & L1 & _).
      rewrite M in E. rewrite (IH _ E). done.
    + destruct (MkdirAll_returns
                  (if -1 <? LastIndex (Join dest (zName f)) slash
                   then slice (Join dest (zName f)) 0
                          (LastIndex (Join dest (zName f)) slash)
                   else "") w) as (r1 & w1 & M & L1 & _).
      rewrite M in E. destruct r1 as [e|]; [done |].
      destruct (OpenFile_returns (Join dest (zName f)) w1)
        as (o & w2 & Op & L2 & _).
      rewrite Op in E. destruct o as [e|h]; [injection E as <- <-; congruence |].
      destruct (Write_returns h (zData f) w2) as (w3 & Wr & L3 & _).
      rewrite Wr in E.
      destruct (zReadErr f); [injection E as <- <-; congruence |].
      rewrite (IH _ E). congruence.
Qed.

Lemma Unzip_logs (src dest : string) (w w' : World) (r : option error) :
  Unzip src dest w = Done r w' -> logs w' = logs w.
Proof.
  unfold Unzip, zip_OpenReader, bind. intros E.
  assert (exists r, ReadFile src w = Done r w) as (rd & Rd).
  { unfold ReadFile. destruct (String.eqb src ""); [by eauto |].
    destruct (stat _ _) as [[|c]|]; by eauto. }
  rewrite Rd in E. destruct rd as [e|bytes]; [by injection E as <- <- |].
  unfold ret in E. destruct (zip_entries bytes) as [e|entries];
    [by injection E as <- <- |].
  by apply unzip_entries_logs in E.
Qed.

Lemma WriteFile_logs (path data : string) (w w' : World) (r : option error) :
  WriteFile path data w = Done r w' -> logs w' = logs w.
Proof.
  unfold WriteFile, bind. intros E.
  destruct (OpenFile_returns path w) as (o & w1 & O & L1 & _).
  rewrite O in E. destruct o as [e|h]; [injection E as <- <-; congruence |].
  destruct (Write_returns h data w1) as (w2 & W & L2 & _).
  rewrite W in E. injection E as <- <-. congruence.
Qed.

(** An error that Unzip returns is logged, the command is set all the same
    and the error is what PrepareBin returns. *)
Lemma PrepareBin_unzip_error_logged (b b' : BinaryPreparable.t) (w w' : World)
    (out path : string) (e : error) :
  BinaryPreparable.PrepareBin (b, w) = Done (out, Some e) (b', w') ->
  logs w' = logs w ++ [LogUnzipError e path] ->
  out = "" /\
  BinaryPreparable.Cmd b' =
    (BinaryPreparable.SysFolder b' +:+ "/" +:+ BinaryPreparable.Name b')
      +:+ "/runtime/bootstrap".
Proof.
  unfold BinaryPreparable.PrepareBin. intros E L.
  assert (forall l : list logline, forall x, l <> l ++ [x]) as Nl.
  { intros l x Hl. apply (f_equal length) in Hl.
    rewrite length_app in Hl. simpl in Hl. lia. }
  step_desc E. step_world_as E M1 r1. apply MkdirAll_Done in M1 as (L0 & _).
  destruct r1 as [e0|].
  { injection E as <- <- <- <-. rewrite L0 in L. by destruct (Nl _ _ L). }
  step_desc E. step_world_as E M2 r2. apply MkdirAll_Done in M2 as (L1 & _).
  destruct r2 as [e0|].
  { injection E as <- <- <- <-. rewrite L1, L0 in L. by destruct (Nl _ _ L). }
  step_desc E. step_desc E.
  match type of E with context [base64_decode ?x] =>
    destruct (base64_decode x) as [e0|decoded] eqn:B64 end.
  { step_world_as E Lg u. injection Lg as <- <-. injection E as <- <- <- <-.
    simpl in L. rewrite L1, L0 in L. by apply app_inv_head in L. }
  step_desc E. step_world_as E Wf r3. apply WriteFile_logs in Wf as L2.
  destruct r3 as [e0|].
  { step_world_as E Lg u. injection Lg as <- <-. injection E as <- <- <- <-.
    simpl in L. rewrite L2, L1, L0 in L. by apply app_inv_head in L. }
  step_world_as E Uz r4. step E. step_desc_as E Gp p4. step_desc E.
  injection E as <- -> <- <-.
  apply BinaryPreparable_getPath_Done in Gp as (_ & -> & ->).
  match goal with G : modify _ _ = Done _ _ |- _ => injection G as <- <- end.
  done.
Qed.

End BundleErrors.

(** C3: a failure of the extraction step can end PrepareBin.  The bundle
    decodes and is staged; the archive holds a (a file) and a/b; making the
    parent directory of a/b fails inside Unzip, which calls log.Fatal: the
    process exits, PrepareBin does not return and the command is not set. *)
Theorem prepare_bin_dies_in_extraction :
  exists b' w',
    BinaryPreparable.PrepareBin (H := scenario_externals)
      (BinaryPreparable.mk "n" "" "" "nested" "/sys" "" "" false [] [],
       empty_world) = Fatal (b', w') /\
    BinaryPreparable.Cmd b' = "" /\
    files w' !! "/sys/n/function.zip" = Some (IsFile "nested") /\
    logs w' = [LogFatal (PathError "mkdir" "/sys/n/runtime/a" ENOTDIR)].
Proof. do 2 eexists. split; [vm_compute; reflexivity |]. by vm_compute. Qed.


(** C5: a bundle whose payload decodes to an archive with a file entry
    bootstrap at its root.  When PrepareBin returns without an error, the
    command is workloadDir/runtime/bootstrap and a regular file is there. *)
Theorem bundle_bootstrap_is_extracted `{Externals}
    (b b' : BinaryPreparable.t) (w w' : World) (out decoded : string)
    (entries : list ZipFile) (f : ZipFile) :
  base64_decode (BinaryPreparable.BZipFile b) = inr decoded ->
  zip_entries decoded = inr entries ->
  f ∈ entries -> zName f = "bootstrap" -> zIsDir f = false ->
  BinaryPreparable.PrepareBin (b, w) = Done (out, None) (b', w') ->
  BinaryPreparable.Cmd b' =
    (BinaryPreparable.SysFolder b' +:+ "/" +:+ BinaryPreparable.Name b')
      +:+ "/runtime/bootstrap" /\
  is_file (files w') (Clean (BinaryPreparable.Cmd b')).
Proof.
  intros B Z Hf Nf Df R.
  destruct (PrepareBin_success _ _ _ _ _ R)
    as (decoded' & entries' & B' & Z' & _ & _ & _ & Ec & _ & F).
  rewrite B in B'. injection B' as <-. rewrite Z in Z'. injection Z' as <-.
  split; [exact Ec |]. specialize (F f Hf Df). rewrite Nf in F.
  rewrite Ec. rewrite !append_assoc in *. exact F.
Qed.

Lemma bundle_bootstrap_is_extracted_witness :
  exists b' w',
    BinaryPreparable.PrepareBin (H := scenario_externals)
      (BinaryPreparable.mk "n" "" "" "bundle" "/sys/" "" "" false [] [],
       empty_world) = Done ("", None) (b', w') /\
    BinaryPreparable.Cmd b' = "/sys/n/runtime/bootstrap" /\
    is_file (files w') (Clean (BinaryPreparable.Cmd b')).
Proof.
  do 2 eexists. split; [vm_compute; reflexivity |].
  split; [reflexivity |].
  eapply proj2.
  eapply (bundle_bootstrap_is_extracted (H := scenario_externals)
            (BinaryPreparable.mk "n" "" "" "bundle" "/sys/" "" "" false [] [])
            _ empty_world _ "" "bundle"
            [mkZipFile "bootstrap" false None "#!" None]
            (mkZipFile "bootstrap" false None "#!" None)).
  - reflexivity.
  - reflexivity.
  - apply elem_of_cons. by left.
  - reflexivity.
  - reflexivity.
  - vm_compute. reflexivity.
Defined.

(** ** Claims about the locked structured-config files *)

Section TomlProperties.
Context {V : Type} `{Toml V}.

Lemma ReadFile_files (path : string) (w w' : World) :
  files w' = files w ->
  ReadFile path w' = match ReadFile path w with
                     | Done r _ => Done r w'
                     | Panic => Panic
                     | Fatal _ => Fatal w'
                     | Blocked => Blocked
                     end.
Proof.
  intros F. unfold ReadFile. rewrite F.
  destruct (String.eqb path ""); [done |].
  by destruct (stat _ _) as [[|c]|].
Qed.

Lemma Lock_free (path : string) (w : World) :
  path ∉ held w ->
  Lock path w = Done tt (set_held ({[path]} ∪ held w) w).
Proof. intros N. unfold Lock. by destruct (decide (path ∈ held w)). Qed.

Lemma unlock_lock (path : string) (w : World) :
  path ∉ held w ->
  set_held (held (set_held ({[path]} ∪ held w) w) ∖ {[path]})
    (set_held ({[path]} ∪ held w) w) = w.
Proof.
  intros N. destruct w as [f l h]. unfold set_held. simpl in *.
  f_equal. apply set_eq. intros x.
  rewrite elem_of_difference, elem_of_union, elem_of_singleton.
  split; [tauto | intros I; repeat split; [by right | by intros ->]].
Qed.

(** C9: writing an encodable value with SafeWriteTomlFile and reading the
    file back with SafeReadTomlFile yields the value; both calls leave the
    lock released. *)
Theorem toml_file_round_trip (v target : V) (path : string) (w w1 : World) :
  encodable v ->
  path ∉ held w ->
  SafeWriteTomlFile v path w = Done None w1 ->
  SafeReadTomlFile path target w1 = Done (v, None) w1 /\
  held w1 = held w.
Proof.
  intros (Enc & Dec) N Wr.
  unfold SafeWriteTomlFile in Wr.
  apply bind_Done_inv in Wr as (u & wl & Lk & Wr).
  rewrite (Lock_free _ _ N) in Lk. injection Lk as <- <-.
  apply bind_Done_inv in Wr as (o & w2 & Op & Wr).
  destruct (OpenFile_returns path (set_held ({[path]} ∪ held w) w))
    as (o' & w2' & Op' & _ & H2 & _ & R).
  rewrite Op' in Op. injection Op as <- <-.
  apply bind_Done_inv in Wr as (r & w3 & Body & Wr).
  apply bind_Done_inv in Wr as (u' & w4 & Ul & Wr).
  unfold ret in Wr. injection Wr as -> ->.
  unfold Unlock, modify in Ul. injection Ul as _ <-.
  destruct o' as [e|h]; [discriminate Body |].
  destruct R as (-> & Np & A & F2).
  apply bind_Done_inv in Body as (u'' & w5 & Wb & Body).
  unfold ret in Body. injection Body as _ <-.
  destruct (Write_returns (Clean path) (fst (toml_encode v)) w2')
    as (w5' & Wb' & _ & H5 & _ & F5).
  rewrite Wb' in Wb. injection Wb as _ <-.
  specialize (F5 "" ltac:(rewrite F2; apply lookup_insert_eq)).
  assert (held w5' = {[path]} ∪ held w) as Hh by (rewrite H5, H2; done).
  assert (path ∉ held w5' ∖ {[path]}) as N'.
  { rewrite elem_of_difference, elem_of_singleton. tauto. }
  split.
  2:{ simpl. rewrite Hh. apply set_eq. intros x.
      rewrite elem_of_difference, elem_of_union, elem_of_singleton.
      split; [tauto | intros I; repeat split; [by right | by intros ->]]. }
  unfold SafeReadTomlFile, bind.
  rewrite Lock_free by done.
  unfold toml_DecodeFile, bind.
  assert (ReadFile path w5' = Done (inr (fst (toml_encode v))) w5') as Rd.
  { unfold ReadFile. destruct (String.eqb_spec path ""); [done |].
    unfold stat. by rewrite A, F5, lookup_insert_eq. }
  rewrite (ReadFile_files path w5') by done. rewrite Rd.
  unfold ret. rewrite Dec. unfold Unlock, modify.
  f_equal. by apply (unlock_lock path (set_held (held w5' ∖ {[path]}) w5')).
Qed.

End TomlProperties.

Lemma toml_file_round_trip_witness :
  exists w1,
    SafeWriteTomlFile (H := verbatim_toml) "registry" "/sys/registry.toml"
      (staged "bundle") = Done None w1 /\
    SafeReadTomlFile (H := verbatim_toml) "/sys/registry.toml" "" w1
      = Done ("registry", None) w1.
Proof.
  eexists. split; [vm_compute; reflexivity |].
  eapply proj1.
  eapply (toml_file_round_trip (H := verbatim_toml) "registry" ""
            "/sys/registry.toml" (staged "bundle")).
  - split; [reflexivity | intros target; reflexivity].
  - apply not_elem_of_empty.
  - vm_compute. reflexivity.
Defined.

(** ** Further properties of the path getters *)

Lemma normal_trim (s : string) : normal s -> TrimSuffix s "/" = s.
Proof. intros (_ & E). by apply TrimSuffix_no_slash. Qed.

Lemma TrimSuffix_empty : TrimSuffix "" "/" = "".
Proof. reflexivity. Qed.

Lemma trim_nonempty (s : string) : TrimSuffix s "/" <> "" -> s <> "".
Proof. intros N ->. by apply N. Qed.

Lemma Preparable_set_same (p : Preparable.t) :
  Preparable.set_SysFolder (Preparable.SysFolder p) p = p.
Proof. by destruct p. Qed.

Lemma BinaryPreparable_set_same (p : BinaryPreparable.t) :
  BinaryPreparable.set_SysFolder (BinaryPreparable.SysFolder p) p = p.
Proof. by destruct p. Qed.

Lemma Preparable_set_set (a c : string) (p : Preparable.t) :
  Preparable.set_SysFolder a (Preparable.set_SysFolder c p)
  = Preparable.set_SysFolder a p.
Proof. reflexivity. Qed.

Lemma BinaryPreparable_set_set (a c : string) (p : BinaryPreparable.t) :
  BinaryPreparable.set_SysFolder a (BinaryPreparable.set_SysFolder c p)
  = BinaryPreparable.set_SysFolder a p.
Proof. reflexivity. Qed.

Ltac stable_getter L Hn :=
  eexists; split;
  [ apply L; apply trim_nonempty, Hn
  | rewrite L by (simpl; apply Hn);
    unfold workloadDir; simpl;
    rewrite (normal_trim _ Hn); reflexivity ].

(** X1: once getPath has had its one chance to trim, the path getters are
    stable.  When SysFolder, with one trailing separator dropped, is not
    empty and ends in no separator, the first call of a getter of either
    variant leaves SysFolder so trimmed, and the same call on the receiver
    it leaves returns the same path and changes nothing. *)
Theorem path_getters_stable_once_trimmed
    (p : Preparable.t) (b : BinaryPreparable.t) :
  (normal (TrimSuffix (Preparable.SysFolder p) "/") ->
   let p1 := Preparable.set_SysFolder
               (TrimSuffix (Preparable.SysFolder p) "/") p in
   stable Preparable.getPath p p1 /\
   stable Preparable.getBinPath p p1 /\
   stable Preparable.getPidPath p p1 /\
   stable Preparable.getOutPath p p1 /\
   stable Preparable.getErrPath p p1) /\
  (normal (TrimSuffix (BinaryPreparable.SysFolder b) "/") ->
   let b1 := BinaryPreparable.set_SysFolder
               (TrimSuffix (BinaryPreparable.SysFolder b) "/") b in
   stable BinaryPreparable.getPath b b1 /\
   stable BinaryPreparable.getPidPath b b1 /\
   stable BinaryPreparable.getOutPath b b1 /\
   stable BinaryPreparable.getErrPath b b1).
Proof.
  split; intros Hn; cbv zeta; unfold stable.
  - split; [stable_getter Preparable_getPath_run Hn |].
    split; [stable_getter Preparable_getBinPath_run Hn |].
    split; [stable_getter Preparable_getPidPath_run Hn |].
    split; [stable_getter Preparable_getOutPath_run Hn
           | stable_getter Preparable_getErrPath_run Hn].
  - split; [stable_getter BinaryPreparable_getPath_run Hn |].
    split; [stable_getter BinaryPreparable_getPidPath_run Hn |].
    split; [stable_getter BinaryPreparable_getOutPath_run Hn
           | stable_getter BinaryPreparable_getErrPath_run Hn].
Qed.

Lemma path_getters_stable_once_trimmed_witness :
  stable Preparable.getPidPath
    (Preparable.mk "n" "/src" "" "" "/sys/" "go" false [] [])
    (Preparable.mk "n" "/src" "" "" "/sys" "go" false [] []) /\
  stable BinaryPreparable.getErrPath
    (BinaryPreparable.mk "n" "" "" "bundle" "/sys/" "" "" false [] [])
    (BinaryPreparable.mk "n" "" "" "bundle" "/sys" "" "" false [] []).
Proof.
  destruct (path_getters_stable_once_trimmed
              (Preparable.mk "n" "/src" "" "" "/sys/" "go" false [] [])
              (BinaryPreparable.mk "n" "" "" "bundle" "/sys/" "" "" false [] []))
    as (P & B).
  split.
  - apply P. split; [discriminate | reflexivity].
  - apply B. split; [discriminate | reflexivity].
Defined.

(** ** Describing the process: SetupProc and Start *)

Lemma trims_S (k : nat) (s : string) :
  trims (S k) s = TrimSuffix (trims k s) "/".
Proof. reflexivity. Qed.

Lemma trims_nonempty (k : nat) (s : string) :
  trims (S k) s <> "" -> trims k s <> "".
Proof. rewrite trims_S. apply trim_nonempty. Qed.

Ltac next_getter L :=
  rewrite L by (simpl; assumption); cbv beta iota.

(** X2: SetupProc of the source-build variant starts nothing and returns no
    error.  It asks for the path, the pid, the out and the err path in this
    order, and each of the four calls drops one more trailing separator of
    SysFolder: when SysFolder is still not empty at the fourth call, Path is
    built from SysFolder trimmed once, Pidfile from it trimmed twice, Outfile
    three times and Errfile four times; Name, Cmd, Args and KeepAlive are
    copied and the receiver keeps the SysFolder trimmed four times. *)
Theorem source_SetupProc_describes (p : Preparable.t) :
  let s := Preparable.SysFolder p in
  let n := Preparable.Name p in
  let bin k := (trims k s +:+ "/" +:+ n) +:+ "/" +:+ n in
  trims 3 s <> "" ->
  Preparable.SetupProc p =
    Done (process.mkProc n (Preparable.Cmd p) (Preparable.Args p) [] ""
            (trims 1 s +:+ "/" +:+ n)
            (bin 2%nat +:+ ".pid") (bin 3%nat +:+ ".out") (bin 4%nat +:+ ".err")
            (Preparable.KeepAlive p) process.EmptyStatus 0, None)
         (Preparable.set_SysFolder (trims 4 s) p).
Proof.
  intros s n bin N3. subst s n bin.
  pose proof (trims_nonempty _ _ N3) as N2.
  pose proof (trims_nonempty _ _ N2) as N1.
  pose proof (trims_nonempty _ _ N1) as N0.
  unfold trims in *. simpl in N0, N1, N2, N3. simpl Nat.iter.
  unfold Preparable.SetupProc, bind, gets, ret.
  next_getter Preparable_getPath_run.
  next_getter Preparable_getPidPath_run.
  next_getter Preparable_getOutPath_run.
  next_getter Preparable_getErrPath_run.
  reflexivity.
Qed.

Lemma source_SetupProc_describes_witness :
  Preparable.SetupProc (Preparable.mk "n" "/src" "/sys/n/n" "" "/sys//" "go" true ["-v"] []) =
    Done (process.mkProc "n" "/sys/n/n" ["-v"] [] "" "/sys//n"
            "/sys/n/n.pid" "/sys/n/n.out" "/sys/n/n.err" true
            process.EmptyStatus 0, None)
         (Preparable.mk "n" "/src" "/sys/n/n" "" "/sys" "go" true ["-v"] []).
Proof.
  apply (source_SetupProc_describes
           (Preparable.mk "n" "/src" "/sys/n/n" "" "/sys//" "go" true ["-v"] [])).
  vm_compute. discriminate.
Defined.

(** X3: SetupProc of the binary-bundle variant starts nothing, returns no
    error and gives the process the Pid -1.  It calls getPath for
    WorkingDir and again for Path, then the pid, out and err getters: five
    calls, each dropping one more trailing separator of SysFolder.  When
    SysFolder is still not empty at the fifth call, WorkingDir is built from
    SysFolder trimmed once, Path twice, Pidfile three, Outfile four and
    Errfile five times; Name, Cmd, Args, Envs and KeepAlive are copied. *)
Theorem bundle_SetupProc_describes (b : BinaryPreparable.t) :
  let s := BinaryPreparable.SysFolder b in
  let n := BinaryPreparable.Name b in
  let dir k := trims k s +:+ "/" +:+ n in
  trims 4 s <> "" ->
  BinaryPreparable.SetupProc b =
    Done (process.mkProc n (BinaryPreparable.Cmd b) (BinaryPreparable.Args b)
            (BinaryPreparable.Envs b) (dir 1%nat) (dir 2%nat)
            (dir 3%nat +:+ "/" +:+ n +:+ ".pid")
            (dir 4%nat +:+ "/" +:+ n +:+ ".out")
            (dir 5%nat +:+ "/" +:+ n +:+ ".err")
            (BinaryPreparable.KeepAlive b) process.EmptyStatus (-1), None)
         (BinaryPreparable.set_SysFolder (trims 5 s) b).
Proof.
  intros s n dir N4. subst s n dir.
  pose proof (trims_nonempty _ _ N4) as N3.
  pose proof (trims_nonempty _ _ N3) as N2.
  pose proof (trims_nonempty _ _ N2) as N1.
  pose proof (trims_nonempty _ _ N1) as N0.
  unfold trims in *. simpl in N0, N1, N2, N3, N4. simpl Nat.iter.
  unfold BinaryPreparable.SetupProc, bind, gets, ret.
  next_getter BinaryPreparable_getPath_run.
  next_getter BinaryPreparable_getPath_run.
  next_getter BinaryPreparable_getPidPath_run.
  next_getter BinaryPreparable_getOutPath_run.
  next_getter BinaryPreparable_getErrPath_run.
  reflexivity.
Qed.

Lemma bundle_SetupProc_describes_witness :
  BinaryPreparable.SetupProc
    (BinaryPreparable.mk "n" "" "/sys/n/runtime/bootstrap" "bundle" "/sys/" ""
       "" false [] ["A=1"]) =
    Done (process.mkProc "n" "/sys/n/runtime/bootstrap" [] ["A=1"] "/sys/n"
            "/sys/n" "/sys/n/n.pid" "/sys/n/n.out" "/sys/n/n.err" false
            process.EmptyStatus (-1), None)
         (BinaryPreparable.mk "n" "" "/sys/n/runtime/bootstrap" "bundle" "/sys"
            "" "" false [] ["A=1"]).
Proof.
  apply (bundle_SetupProc_describes
           (BinaryPreparable.mk "n" "" "/sys/n/runtime/bootstrap" "bundle"
              "/sys/" "" "" false [] ["A=1"])).
  vm_compute. discriminate.
Defined.

Ltac run_or_stop g :=
  match goal with
  | |- context [g ?d] =>
      destruct (g d) as [? ?| |?|]; cbv beta iota delta [fst snd];
      [| reflexivity..]
  end.

(** X4: Start describes the process as SetupProc does and hands that
    description to proc.Start, whose result it returns.  For the source-build
    variant the description is the one SetupProc returns; for the
    binary-bundle variant it differs in the Pid only, which Start leaves at 0
    where SetupProc sets -1.  The receiver is left as SetupProc leaves it, and
    when SetupProc panics Start panics before anything is started. *)
Theorem Start_starts_what_SetupProc_describes `{ProcessLib}
    (p : Preparable.t) (b : BinaryPreparable.t) (w : World) :
  Preparable.Start (p, w) =
    match Preparable.SetupProc p with
    | Done (proc, _) p' => on_world (proc_Start proc) (p', w)
    | Panic => Panic
    | Fatal p' => Fatal (p', w)
    | Blocked => Blocked
    end /\
  BinaryPreparable.Start (b, w) =
    match BinaryPreparable.SetupProc b with
    | Done (proc, _) b' => on_world (proc_Start (with_Pid 0 proc)) (b', w)
    | Panic => Panic
    | Fatal b' => Fatal (b', w)
    | Blocked => Blocked
    end.
Proof.
  split.
  - cbv beta iota delta
      [Preparable.Start Preparable.SetupProc bind on_desc gets ret fst snd].
    run_or_stop Preparable.getPath.
    run_or_stop Preparable.getPidPath.
    run_or_stop Preparable.getOutPath.
    run_or_stop Preparable.getErrPath.
    reflexivity.
  - cbv beta iota delta
      [BinaryPreparable.Start BinaryPreparable.SetupProc bind on_desc gets ret
       fst snd].
    run_or_stop BinaryPreparable.getPath.
    run_or_stop BinaryPreparable.getPath.
    run_or_stop BinaryPreparable.getPidPath.
    run_or_stop BinaryPreparable.getOutPath.
    run_or_stop BinaryPreparable.getErrPath.
    reflexivity.
Qed.

(** X5: with an empty SysFolder, SetupProc and Start of either variant
    panic at their first call of getPath; Start does not reach proc.Start,
    so no process is started. *)
Theorem describing_needs_SysFolder `{ProcessLib}
    (p : Preparable.t) (b : BinaryPreparable.t) (w : World) :
  (Preparable.SysFolder p = "" ->
   Preparable.SetupProc p = Panic /\ Preparable.Start (p, w) = Panic) /\
  (BinaryPreparable.SysFolder b = "" ->
   BinaryPreparable.SetupProc b = Panic /\
   BinaryPreparable.Start (b, w) = Panic).
Proof.
  split; intros E.
  - pose proof (Preparable_getPath_panic p E) as G.
    cbv beta iota delta
      [Preparable.Start Preparable.SetupProc bind on_desc gets ret fst snd].
    by rewrite G.
  - pose proof (BinaryPreparable_getPath_panic b E) as G.
    cbv beta iota delta
      [BinaryPreparable.Start BinaryPreparable.SetupProc bind on_desc gets ret
       fst snd].
    by rewrite G.
Qed.

Lemma describing_needs_SysFolder_witness :
  Preparable.SetupProc (Preparable.mk "n" "/src" "" "" "" "go" false [] [])
    = Panic /\
  BinaryPreparable.Start (H := idle_process)
    (BinaryPreparable.mk "n" "" "" "bundle" "" "" "" false [] [], empty_world)
    = Panic.
Proof.
  destruct (describing_needs_SysFolder (H := idle_process)
              (Preparable.mk "n" "/src" "" "" "" "go" false [] [])
              (BinaryPreparable.mk "n" "" "" "bundle" "" "" "" false [] [])
              empty_world) as (P & B).
  split.
  - apply P. reflexivity.
  - apply B. reflexivity.
Defined.

(** ** More on the source-build PrepareBin *)

(** X6: which command the source-build PrepareBin runs.  With a non-empty
    SourcePath and SysFolder, a descriptor whose Language is "go" runs
    go build -o binPath sourcePath/. (sourcePath without one trailing
    separator) and PrepareBin returns the output and the error of that
    command as they are; for every other Language no toolchain is chosen and
    the command with the empty name and no argument is run.  In both cases
    Cmd is set to binPath. *)
Theorem source_PrepareBin_invocation `{Externals} (p : Preparable.t) :
  Preparable.SourcePath p <> "" ->
  Preparable.SysFolder p <> "" ->
  let src := TrimSuffix (Preparable.SourcePath p) "/" in
  let bin := workloadDir (Preparable.SysFolder p) (Preparable.Name p)
               +:+ "/" +:+ Preparable.Name p in
  exists p',
    Preparable.PrepareBin p =
      Done (if String.eqb (Preparable.Language p) "go"
            then exec_output "go" ["build"; "-o"; bin; src +:+ "/."]
            else exec_output "" []) p' /\
    Preparable.Cmd p' = bin /\ Preparable.SourcePath p' = src /\
    Preparable.SysFolder p' = TrimSuffix (Preparable.SysFolder p) "/" /\
    Preparable.Name p' = Preparable.Name p /\
    Preparable.Language p' = Preparable.Language p /\
    Preparable.Args p' = Preparable.Args p /\
    Preparable.Envs p' = Preparable.Envs p.
Proof.
  intros Ns Nf src bin.
  eexists. split.
  - rewrite (Preparable_PrepareBin_run p Ns Nf). cbv zeta.
    unfold Preparable.build_command.
    by destruct (String.eqb (Preparable.Language p) "go").
  - by repeat split.
Qed.

Lemma source_PrepareBin_invocation_witness :
  exists p',
    Preparable.PrepareBin (H := scenario_externals)
      (Preparable.mk "n" "/src/" "" "" "/sys/" "rust" false [] []) =
      Done (exec_output (Externals := scenario_externals) "" []) p' /\
    Preparable.Cmd p' = "/sys/n/n".
Proof.
  destruct (source_PrepareBin_invocation (H := scenario_externals)
              (Preparable.mk "n" "/src/" "" "" "/sys/" "rust" false [] []))
    as (p' & R & C & _); [discriminate | discriminate |].
  exists p'. split; [exact R | exact C].
Defined.


(** ** More on archive extraction *)

Lemma unzip_entries_app (dest : string) (pre post : list ZipFile)
    (w : World) :
  unzip_entries dest (pre ++ post) w =
    match unzip_entries dest pre w with
    | Done None w1 => unzip_entries dest post w1
    | stopped => stopped
    end.
Proof.
  revert w. induction pre as [|f pre IH]; intros w; [reflexivity |].
  change ((f :: pre) ++ post) with (f :: (pre ++ post)).
  cbn [unzip_entries].
  destruct (zOpen f); [reflexivity |].
  destruct (zIsDir f).
  - unfold bind. destruct (MkdirAll _ w) as [r w1| | |]; [apply IH | done..].
  - unfold bind. destruct (MkdirAll _ w) as [[e|] w1| | |]; try done.
    destruct (OpenFile _ w1) as [[e|h] w2| | |]; try done.
    destruct (Write h (zData f) w2) as [u w3| | |]; try done.
    destruct (zReadErr f); [done | apply IH].
Qed.

(** X8: extraction is sequential and keeps no account of what it has done.
    Extracting the entries pre followed by post is extracting pre and, when
    that returned no error, extracting post in the world it left; when pre
    returned an error or ended the process, that is the outcome, no entry of
    post is looked at and what pre had written stays written. *)
Theorem unzip_is_sequential (dest : string) (pre post : list ZipFile)
    (w : World) :
  unzip_entries dest (pre ++ post) w =
    match unzip_entries dest pre w with
    | Done None w1 => unzip_entries dest post w1
    | stopped => stopped
    end.
Proof. apply unzip_entries_app. Qed.

Lemma mkdir_chain_subseteq (dirs : list string) (fs fs' : gmap string node) :
  mkdir_chain fs dirs = inr fs' -> fs ⊆ fs'.
Proof.
  revert fs. induction dirs as [|d dirs IH]; intros fs E; simpl in E.
  - by injection E as <-.
  - unfold stat in E. destruct (anchor d); [by apply IH |].
    destruct (fs !! d) as [[|c]|] eqn:L; [by apply IH | done |].
    etrans; [| by apply IH]. by apply insert_subseteq.
Qed.

Lemma MkdirAll_subseteq (path : string) (w w1 : World) (r : option error) :
  MkdirAll path w = Done r w1 -> files w ⊆ files w1.
Proof.
  unfold MkdirAll. destruct (String.eqb path ""); [by intros [= <- <-] |].
  destruct (mkdir_chain _ _) as [e|fs] eqn:E; intros [= <- <-]; [done |].
  by apply (mkdir_chain_subseteq _ _ _ E).
Qed.

Lemma unzip_file_entry_inv (dest : string) (f : ZipFile) (rest : list ZipFile)
    (w w' : World) (r : option error) :
  zIsDir f = false ->
  unzip_entries dest (f :: rest) w = Done r w' ->
  (exists e, zOpen f = Some e /\ r = Some e /\ w' = w) \/
  zOpen f = None /\
  exists w1 w2 o,
    MkdirAll (file_dir (Join dest (zName f))) w = Done None w1 /\
    OpenFile (Join dest (zName f)) w1 = Done o w2 /\
    match o with
    | inl e => r = Some e /\ w' = w2
    | inr h =>
        exists w3, Write h (zData f) w2 = Done tt w3 /\
          match zReadErr f with
          | Some e => r = Some e /\ w' = w3
          | None => unzip_entries dest rest w3 = Done r w'
          end
    end.
Proof.
  intros D U. cbn [unzip_entries] in U. rewrite D in U.
  destruct (zOpen f) as [e|]; [left; injection U as <- <-; by eauto |].
  right. split; [done |].
  apply bind_Done_inv in U as (err & w1 & Mk & U).
  destruct err as [e|]; [done |].
  apply bind_Done_inv in U as (o & w2 & Op & U).
  exists w1, w2, o. split; [exact Mk |]. split; [exact Op |].
  destruct o as [e|h]; [by injection U as <- <- |].
  apply bind_Done_inv in U as ([] & w3 & Wr & U).
  exists w3. split; [exact Wr |].
  destruct (zReadErr f); [by injection U as <- <- | exact U].
Qed.

Lemma OpenFile_Done (path : string) (w w' : World) (o : error + string) :
  OpenFile path w = Done o w' ->
  logs w' = logs w /\ held w' = held w /\
  match o with
  | inl _ => w' = w
  | inr h => h = Clean path /\ path <> "" /\ anchor h = false /\
             files w' = <[h := IsFile ""]> (files w)
  end.
Proof.
  intros E. destruct (OpenFile_returns path w) as (o' & w1 & E' & L & Hd & _ & R).
  rewrite E' in E. by injection E as <- <-.
Qed.

Lemma Write_Done (h data : string) (w w' : World) (u : unit) :
  Write h data w = Done u w' ->
  logs w' = logs w /\ held w' = held w /\
  forall old, files w !! h = Some (IsFile old) ->
    files w' = <[h := IsFile (old +:+ data)]> (files w).
Proof.
  intros E. destruct (Write_returns h data w) as (w1 & E' & L & Hd & _ & R).
  rewrite E' in E. by injection E as _ <-.
Qed.

Lemma unzip_entries_keeps_content (dest : string) (entries : list ZipFile)
    (w w' : World) (r : option error) (q : string) (x : node) :
  unzip_entries dest entries w = Done r w' ->
  Forall (fun g => zIsDir g = false -> Join dest (zName g) <> q) entries ->
  files w !! q = Some x -> files w' !! q = Some x.
Proof.
  revert w. induction entries as [|g rest IH]; intros w U Fa L.
  - by injection U as _ <-.
  - apply Forall_cons in Fa as (Ng & Fa).
    destruct (zIsDir g) eqn:D.
    + cbn [unzip_entries] in U. rewrite D in U.
      destruct (zOpen g); [by injection U as _ <- |].
      apply bind_Done_inv in U as (r1 & w1 & Mk & U).
      apply (IH w1 U Fa).
      by apply (lookup_weaken _ _ _ _ L), (MkdirAll_subseteq _ _ _ _ Mk).
    + apply (unzip_file_entry_inv _ _ _ _ _ _ D) in U
        as [(e & _ & _ & ->)|(_ & w1 & w2 & o & Mk & Op & U)]; [done |].
      assert (files w1 !! q = Some x) as L1
        by apply (lookup_weaken _ _ _ _ L), (MkdirAll_subseteq _ _ _ _ Mk).
      apply OpenFile_Done in Op as (_ & _ & Op).
      destruct o as [e|h]; [destruct U as (_ & ->); by rewrite Op |].
      destruct Op as (-> & Np & _ & F2).
      rewrite (Clean_Join _ _ Np) in *.
      destruct U as (w3 & Wr & U).
      apply Write_Done in Wr as (_ & _ & F3).
      specialize (F3 "" ltac:(rewrite F2; apply lookup_insert_eq)).
      assert (files w3 !! q = Some x) as L3.
      { rewrite F3, lookup_insert_ne, F2, lookup_insert_ne by (by apply Ng).
        exact L1. }
      destruct (zReadErr g); [by destruct U as (_ & ->) | by apply (IH w3)].
Qed.

(** X9: what an extracted file holds.  When the extraction of an archive
    returns no error, a file entry f that no later file entry of the
    archive is written over (none has the same joined path) is a regular
    file at filepath.Join(dest, f.Name) holding exactly the bytes of the
    entry: what the path held before, on disk or from an earlier entry, is
    gone. *)
Theorem unzip_entry_content (dest : string) (pre post : list ZipFile)
    (f : ZipFile) (w w' : World) :
  zIsDir f = false ->
  Forall (fun g => zIsDir g = false ->
                   Join dest (zName g) <> Join dest (zName f)) post ->
  unzip_entries dest (pre ++ f :: post) w = Done None w' ->
  files w' !! Join dest (zName f) = Some (IsFile (zData f)).
Proof.
  intros D Fa U. rewrite unzip_entries_app in U.
  destruct (unzip_entries dest pre w) as [[e|] w0| | |]; try done.
  apply (unzip_file_entry_inv _ _ _ _ _ _ D) in U
    as [(e & _ & ? & _)|(_ & w1 & w2 & o & Mk & Op & U)]; [done |].
  apply OpenFile_Done in Op as (_ & _ & Op).
  destruct o as [e|h]; [by destruct U |].
  destruct Op as (-> & Np & _ & F2).
  rewrite (Clean_Join _ _ Np) in *.
  destruct U as (w3 & Wr & U).
  apply Write_Done in Wr as (_ & _ & F3).
  specialize (F3 "" ltac:(rewrite F2; apply lookup_insert_eq)).
  destruct (zReadErr f); [by destruct U |].
  apply (unzip_entries_keeps_content _ _ _ _ _ _ _ U Fa).
  rewrite F3. apply lookup_insert_eq.
Qed.

Lemma unzip_entry_content_witness :
  exists w',
    unzip_entries "/sys/n/runtime"
      [mkZipFile "a" false None "old" None; mkZipFile "a" false None "x" None;
       mkZipFile "c" false None "z" None] (staged "bundle") = Done None w' /\
    files w' !! "/sys/n/runtime/a" = Some (IsFile "x").
Proof.
  eexists. split; [vm_compute; reflexivity |].
  apply (unzip_entry_content "/sys/n/runtime"
           [mkZipFile "a" false None "old" None]
           [mkZipFile "c" false None "z" None]
           (mkZipFile "a" false None "x" None) (staged "bundle")).
  - reflexivity.
  - apply Forall_cons. split; [intros _; vm_compute; discriminate | apply Forall_nil_2].
  - vm_compute. reflexivity.
Defined.

Lemma same_kind_refl (n : node) : same_kind n n = true.
Proof. by destruct n. Qed.

Lemma keeps_kinds_refl (fs : gmap string node) : keeps_kinds fs fs.
Proof. intros q n L. exists n. split; [done | apply same_kind_refl]. Qed.

Lemma keeps_kinds_trans (a b c : gmap string node) :
  keeps_kinds a b -> keeps_kinds b c -> keeps_kinds a c.
Proof.
  intros K1 K2 q n L. destruct (K1 q n L) as (n1 & L1 & S1).
  destruct (K2 q n1 L1) as (n2 & L2 & S2). exists n2. split; [done |].
  by destruct n, n1, n2.
Qed.

Lemma keeps_kinds_subseteq (a b : gmap string node) :
  a ⊆ b -> keeps_kinds a b.
Proof.
  intros Sub q n L. exists n.
  split; [by apply (lookup_weaken _ _ _ _ L) | apply same_kind_refl].
Qed.

Lemma keeps_kinds_insert_file (fs : gmap string node) (h c : string) :
  fs !! h <> Some IsDir -> keeps_kinds fs (<[h := IsFile c]> fs).
Proof.
  intros N q n L. destruct (decide (h = q)) as [<-|Nq].
  - exists (IsFile c). rewrite lookup_insert_eq. split; [done |].
    destruct n; [congruence | done].
  - exists n. rewrite lookup_insert_ne by done.
    split; [done | apply same_kind_refl].
Qed.

Lemma OpenFile_keeps_kinds (path : string) (w w' : World) (o : error + string) :
  OpenFile path w = Done o w' -> keeps_kinds (files w) (files w').
Proof.
  unfold OpenFile. destruct (String.eqb path "");
    [intros [= <- <-]; apply keeps_kinds_refl |].
  unfold stat at 1. destruct (anchor (Clean path));
    [intros [= <- <-]; apply keeps_kinds_refl |].
  destruct (files w !! Clean path) as [[|c]|] eqn:L.
  - intros [= <- <-]. apply keeps_kinds_refl.
  - intros [= <- <-]. apply keeps_kinds_insert_file. congruence.
  - destruct (stat (files w) (Dir (Clean path))) as [[|c]|];
      intros [= <- <-]; try apply keeps_kinds_refl.
    apply keeps_kinds_insert_file. congruence.
Qed.

Lemma Write_keeps_kinds (h data : string) (w w' : World) (u : unit) :
  Write h data w = Done u w' -> keeps_kinds (files w) (files w').
Proof.
  unfold Write, modify.
  destruct (files w !! h) as [[|c]|] eqn:L; intros [= _ <-];
    try apply keeps_kinds_refl.
  apply keeps_kinds_insert_file. congruence.
Qed.

Lemma unzip_entries_final (dest : string) (entries : list ZipFile)
    (w w' : World) :
  final (unzip_entries dest entries w) = Some w' ->
  keeps_kinds (files w) (files w') /\ held w' = held w /\
  (logs w' = logs w \/
   exists e wf, unzip_entries dest entries w = Fatal wf /\
                logs w' = logs w ++ [LogFatal e]).
Proof.
  revert w. induction entries as [|f rest IH]; intros w.
  - intros [= <-]. split; [apply keeps_kinds_refl | by auto].
  - cbn [unzip_entries].
    destruct (zOpen f);
      [intros [= <-]; split; [apply keeps_kinds_refl | by auto] |].
    destruct (zIsDir f).
    + destruct (MkdirAll_returns (Join dest (zName f)) w)
        as (r & w1 & Mk & L1 & H1 & _).
      unfold bind. rewrite Mk.
      intros Fi. destruct (IH w1 Fi) as (K & Hd & Lg).
      split; [| split; [congruence | by rewrite <- L1]].
      eapply keeps_kinds_trans; [| exact K].
      apply keeps_kinds_subseteq, (MkdirAll_subseteq _ _ _ _ Mk).
    + match goal with
      | |- context [MkdirAll ?d] =>
          destruct (MkdirAll_returns d w) as (r & w1 & Mk & L1 & H1 & _)
      end.
      unfold bind. rewrite Mk.
      pose proof (keeps_kinds_subseteq _ _ (MkdirAll_subseteq _ _ _ _ Mk)) as K1.
      destruct r as [e|].
      * intros [= <-]. split; [done | split; [done |]].
        right. exists e, (add_log (LogFatal e) w1). split; [done |].
        simpl. by rewrite L1.
      * destruct (OpenFile_returns (Join dest (zName f)) w1)
          as (o & w2 & Op & L2 & H2 & _ & R).
        rewrite Op.
        pose proof (OpenFile_keeps_kinds _ _ _ _ Op) as K2.
        destruct o as [e|h].
        -- subst w2. intros [= <-]. split; [done | split; [done | by left]].
        -- destruct (Write_returns h (zData f) w2)
             as (w3 & Wr & L3 & H3 & _).
           rewrite Wr.
           pose proof (Write_keeps_kinds _ _ _ _ _ Wr) as K3.
           assert (keeps_kinds (files w) (files w3)) as K
             by (eapply keeps_kinds_trans; [| exact K3];
                 eapply keeps_kinds_trans; [exact K1 | exact K2]).
           destruct (zReadErr f).
           ++ intros [= <-]. split; [done |]. split; [congruence |].
              left. congruence.
           ++ intros Fi. destruct (IH w3 Fi) as (K' & Hd & Lg).
              split; [by eapply keeps_kinds_trans |].
              split; [congruence |].
              by rewrite <- L1, <- L2, <- L3.
Qed.

Lemma ReadFile_returns (path : string) (w : World) :
  exists r, ReadFile path w = Done r w.
Proof.
  unfold ReadFile. destruct (String.eqb path ""); [by eauto |].
  destruct (stat _ _) as [[|c]|]; by eauto.
Qed.

(** X10: however an extraction ends, with no error, with a returned error
    or with log.Fatal, it has removed nothing: every name that was on disk
    is still there, a directory as a directory and a regular file as a
    regular file, and no lock has changed hands.  It logs nothing, except
    the one line of log.Fatal when it ends the process. *)
Theorem unzip_never_removes `{Externals} (src dest : string) (w w' : World) :
  final (Unzip src dest w) = Some w' ->
  keeps_kinds (files w) (files w') /\ held w' = held w /\
  (logs w' = logs w \/
   exists e wf, Unzip src dest w = Fatal wf /\
                logs w' = logs w ++ [LogFatal e]).
Proof.
  unfold Unzip, zip_OpenReader, bind.
  destruct (ReadFile_returns src w) as (r & ->).
  destruct r as [e|bytes];
    [intros [= <-]; split; [apply keeps_kinds_refl | by auto] |].
  unfold ret. destruct (zip_entries bytes) as [e|entries];
    [intros [= <-]; split; [apply keeps_kinds_refl | by auto] |].
  apply unzip_entries_final.
Qed.

Lemma unzip_never_removes_witness :
  exists w',
    final (Unzip (H := scenario_externals) "/sys/n/function.zip"
             "/sys/n/runtime" (staged "nested")) = Some w' /\
    keeps_kinds (files (staged "nested")) (files w').
Proof.
  eexists. split; [vm_compute; reflexivity |].
  eapply proj1.
  apply (unzip_never_removes (H := scenario_externals) "/sys/n/function.zip"
           "/sys/n/runtime" (staged "nested")).
  vm_compute. reflexivity.
Defined.







(** ** More on the binary-bundle PrepareBin *)

Lemma BinaryPreparable_getOutPath_Done (p p' : BinaryPreparable.t) (r : string) :
  BinaryPreparable.getOutPath p = Done r p' ->
  BinaryPreparable.SysFolder p <> "" /\
  r = workloadDir (BinaryPreparable.SysFolder p) (BinaryPreparable.Name p)
        +:+ "/" +:+ BinaryPreparable.Name p +:+ ".out" /\
  p' = BinaryPreparable.set_SysFolder
         (TrimSuffix (BinaryPreparable.SysFolder p) "/") p.
Proof.
  intros E. destruct (decide (BinaryPreparable.SysFolder p = "")) as [Z|N].
  - destruct (BinaryPreparable_getters_panic p Z) as (_ & O & _). congruence.
  - rewrite (BinaryPreparable_getOutPath_run p N) in E. by injection E as <- <-.
Qed.

Lemma MkdirAll_error (path : string) (w w1 : World) (e : error) :
  MkdirAll path w = Done (Some e) w1 -> w1 = w.
Proof.
  unfold MkdirAll. destruct (String.eqb path ""); [by intros [= _ <-] |].
  destruct (mkdir_chain _ _); [by intros [= _ <-] | done].
Qed.

Section BundleOutcomes.
Context `{Externals}.

(** The ways in which the binary-bundle PrepareBin returns. *)
Lemma PrepareBin_Done_cases (b b' : BinaryPreparable.t) (w w' : World)
    (out : string) (err : option error) :
  BinaryPreparable.PrepareBin (b, w) = Done (out, err) (b', w') ->
  let s := BinaryPreparable.SysFolder b in
  let n := BinaryPreparable.Name b in
  let rp := (trims 2 s +:+ "/" +:+ n) +:+ "/runtime" in
  let envs := BinaryPreparable.Envs b ++ runtime_envs rp in
  out = "" /\
  ((exists e, err = Some e /\ w' = w /\
      b' = BinaryPreparable.set_SysFolder (trims 1 s) b) \/
   (exists e, err = Some e /\ logs w' = logs w /\
      b' = BinaryPreparable.set_SysFolder (trims 2 s) b) \/
   (exists e, err = Some e /\
      base64_decode (BinaryPreparable.BZipFile b) = inl e /\
      logs w' = logs w ++ [LogDecodeError e] /\
      b' = BinaryPreparable.set_Envs envs
             (BinaryPreparable.set_SysFolder (trims 2 s) b)) \/
   (exists e decoded, err = Some e /\
      base64_decode (BinaryPreparable.BZipFile b) = inr decoded /\
      logs w' = logs w ++ [LogDecodeError e] /\
      b' = BinaryPreparable.set_Envs envs
             (BinaryPreparable.set_SysFolder (trims 3 s) b)) \/
   (exists decoded,
      base64_decode (BinaryPreparable.BZipFile b) = inr decoded /\
      logs w' = logs w ++ match err with
                          | Some e => [LogUnzipError e rp]
                          | None => []
                          end /\
      b' = BinaryPreparable.set_Cmd
             ((trims 4 s +:+ "/" +:+ n) +:+ "/runtime/bootstrap")
             (BinaryPreparable.set_Envs envs
                (BinaryPreparable.set_SysFolder (trims 4 s) b)))).
Proof.
  unfold BinaryPreparable.PrepareBin. intros E. cbv zeta. unfold trims. simpl Nat.iter.
  step_desc_as E G1 outPath.
  apply BinaryPreparable_getOutPath_Done in G1 as (_ & _ & ->).
  step_world_as E M1 r1. destruct r1 as [e0|].
  { apply MkdirAll_error in M1 as ->. injection E as <- <- <- <-.
    split; [done |]. left. by exists e0. }
  apply MkdirAll_Done in M1 as (L0 & _).
  step_desc_as E G2 path2.
  apply BinaryPreparable_getPath_Done in G2 as (_ & -> & ->).
  step_world_as E M2 r2. apply MkdirAll_Done in M2 as (L1 & _).
  destruct r2 as [e0|].
  { injection E as <- <- <- <-. split; [done |]. right. left.
    exists e0. split; [done |]. split; [congruence | done]. }
  step_desc_as E Md u1. injection Md as _ <-.
  step_desc_as E Gb bz. injection Gb as <- <-.
  simpl in E.
  destruct (base64_decode (BinaryPreparable.BZipFile b)) as [e0|decoded] eqn:B64.
  { step_world_as E Lg u. injection Lg as _ <-. injection E as <- <- <- <-.
    split; [done |]. right. right. left. exists e0.
    split; [done |]. split; [done |]. split; [simpl; congruence | done]. }
  step_desc_as E G3 path3.
  apply BinaryPreparable_getPath_Done in G3 as (_ & -> & ->).
  step_world_as E Wf r3. apply WriteFile_logs in Wf as L2.
  destruct r3 as [e0|].
  { step_world_as E Lg u. injection Lg as _ <-. injection E as <- <- <- <-.
    split; [done |]. right. right. right. left. exists e0, decoded.
    split; [done |]. split; [done |]. split; [simpl; congruence | done]. }
  step_world_as E Uz r4. apply Unzip_logs in Uz as L3.
  apply bind_Done_inv in E as (u3 & s3 & Lg & E).
  assert (exists wz, s3 = (BinaryPreparable.set_Envs
                             (BinaryPreparable.Envs b ++
                              runtime_envs
                                ((TrimSuffix (TrimSuffix
                                    (BinaryPreparable.SysFolder b) "/") "/"
                                  +:+ "/" +:+ BinaryPreparable.Name b)
                                 +:+ "/runtime"))
                             (BinaryPreparable.set_SysFolder
                                (TrimSuffix (TrimSuffix (TrimSuffix
                                   (BinaryPreparable.SysFolder b) "/") "/") "/")
                                b), wz) /\
            logs wz = logs w ++ match r4 with
                                | Some e => [LogUnzipError e
                                   ((TrimSuffix (TrimSuffix
                                       (BinaryPreparable.SysFolder b) "/") "/"
                                     +:+ "/" +:+ BinaryPreparable.Name b)
                                    +:+ "/runtime")]
                                | None => []
                                end) as (wz & -> & L4).
  { destruct r4 as [e0|].
    - apply on_world_Done_inv in Lg as (wl & Lg & ->).
      injection Lg as _ <-. eexists. split; [reflexivity |].
      simpl. congruence.
    - injection Lg as _ <-. eexists. split; [reflexivity |].
      rewrite app_nil_r. congruence. }
  step_desc_as E G4 path4.
  apply BinaryPreparable_getPath_Done in G4 as (_ & -> & ->).
  step_desc_as E Mc u2. injection Mc as _ <-.
  injection E as <- <- <- <-.
  split; [done |]. right. right. right. right. exists decoded.
  split; [done |]. split; [exact L4 | done].
Qed.

(** X14: what has happened when the binary-bundle PrepareBin returns an
    error.  It returns no bytes, and one of three things has happened.  A
    directory could not be made: nothing is logged, Cmd and Envs are as they
    were.  The payload could not be decoded or function.zip could not be
    written: the error is logged, in both cases as a decode error, Cmd is as
    it was and Envs has grown by the two runtime variables all the same.
    Unzip returned the error: it is logged as an unzip error with the runtime
    path, Envs has grown and Cmd is set to the bootstrap path. *)
Theorem bundle_PrepareBin_error_cases (b b' : BinaryPreparable.t)
    (w w' : World) (out : string) (e : error) :
  BinaryPreparable.PrepareBin (b, w) = Done (out, Some e) (b', w') ->
  let s := BinaryPreparable.SysFolder b in
  let n := BinaryPreparable.Name b in
  let rp := (trims 2 s +:+ "/" +:+ n) +:+ "/runtime" in
  out = "" /\
  ((logs w' = logs w /\
    BinaryPreparable.Cmd b' = BinaryPreparable.Cmd b /\
    BinaryPreparable.Envs b' = BinaryPreparable.Envs b) \/
   (logs w' = logs w ++ [LogDecodeError e] /\
    BinaryPreparable.Cmd b' = BinaryPreparable.Cmd b /\
    BinaryPreparable.Envs b' = BinaryPreparable.Envs b ++ runtime_envs rp) \/
   (logs w' = logs w ++ [LogUnzipError e rp] /\
    BinaryPreparable.Cmd b' =
      (trims 4 s +:+ "/" +:+ n) +:+ "/runtime/bootstrap" /\
    BinaryPreparable.Envs b' = BinaryPreparable.Envs b ++ runtime_envs rp)).
Proof.
  intros E. apply PrepareBin_Done_cases in E as (-> & C). cbv zeta in *.
  split; [done |].
  destruct C as [(e0 & [= <-] & -> & ->)|[(e0 & [= <-] & L & ->)|
    [(e0 & [= <-] & _ & L & ->)|[(e0 & d & [= <-] & _ & L & ->)|(d & _ & L & ->)]]]].
  - by left.
  - by left.
  - right. by left.
  - right. by left.
  - right. by right.
Qed.

(** X15: what a successful binary-bundle PrepareBin does to the
    descriptor.  It returns no bytes and logs nothing; Envs has grown by
    LAMBDA_TASK_ROOT=runtimePath and the fixed PATH entry, Cmd is the
    bootstrap path, SysFolder has lost up to four trailing separators, and
    every other field is as it was. *)
Theorem bundle_PrepareBin_success_frame (b b' : BinaryPreparable.t)
    (w w' : World) (out : string) :
  BinaryPreparable.PrepareBin (b, w) = Done (out, None) (b', w') ->
  let s := BinaryPreparable.SysFolder b in
  let n := BinaryPreparable.Name b in
  out = "" /\ logs w' = logs w /\
  b' = BinaryPreparable.mk n (BinaryPreparable.SourcePath b)
         ((trims 4 s +:+ "/" +:+ n) +:+ "/runtime/bootstrap")
         (BinaryPreparable.BZipFile b) (trims 4 s)
         (BinaryPreparable.WorkingDir b) (BinaryPreparable.Language b)
         (BinaryPreparable.KeepAlive b) (BinaryPreparable.Args b)
         (BinaryPreparable.Envs b ++
            ["LAMBDA_TASK_ROOT=" +:+ (trims 2 s +:+ "/" +:+ n) +:+ "/runtime";
             "PATH=/home/silas/.deno/bin:/usr/bin"]).
Proof.
  intros E. apply PrepareBin_Done_cases in E as (-> & C). cbv zeta in *.
  split; [done |].
  destruct C as [(e0 & [=] & _)|[(e0 & [=] & _)|
    [(e0 & [=] & _)|[(e0 & d & [=] & _)|(d & _ & L & ->)]]]].
  split; [by rewrite app_nil_r in L | done].
Qed.

(** X16: preparing a bundle twice adds the runtime variables twice.  When
    PrepareBin succeeds on a descriptor and again on the descriptor it left,
    Envs ends with LAMBDA_TASK_ROOT and PATH two times over: the entries are
    appended without a look at what Envs holds already. *)
Theorem bundle_PrepareBin_twice_repeats_envs (b b1 b2 : BinaryPreparable.t)
    (w w1 w2 : World) (out1 out2 : string) :
  BinaryPreparable.PrepareBin (b, w) = Done (out1, None) (b1, w1) ->
  BinaryPreparable.PrepareBin (b1, w1) = Done (out2, None) (b2, w2) ->
  let s := BinaryPreparable.SysFolder b in
  let n := BinaryPreparable.Name b in
  BinaryPreparable.Envs b2 =
    BinaryPreparable.Envs b
      ++ runtime_envs ((trims 2 s +:+ "/" +:+ n) +:+ "/runtime")
      ++ runtime_envs ((trims 6 s +:+ "/" +:+ n) +:+ "/runtime").
Proof.
  intros E1 E2.
  apply PrepareBin_Done_cases in E1 as (_ & C1).
  apply PrepareBin_Done_cases in E2 as (_ & C2). cbv zeta in *.
  destruct C1 as [(e0 & [=] & _)|[(e0 & [=] & _)|
    [(e0 & [=] & _)|[(e0 & d & [=] & _)|(d1 & _ & _ & ->)]]]].
  destruct C2 as [(e0 & [=] & _)|[(e0 & [=] & _)|
    [(e0 & [=] & _)|[(e0 & d & [=] & _)|(d2 & _ & _ & ->)]]]].
  simpl. by rewrite <- app_assoc.
Qed.

End BundleOutcomes.

Lemma bundle_PrepareBin_error_cases_witness :
  exists b' w',
    BinaryPreparable.PrepareBin (H := scenario_externals)
      (BinaryPreparable.mk "n" "" "" "junk" "/sys" "" "" false [] [],
       empty_world)
    = Done ("", Some (LibError "zip: not a valid zip file")) (b', w') /\
    "" = "" /\
    ((logs w' = logs empty_world /\
      BinaryPreparable.Cmd b' = "" /\ BinaryPreparable.Envs b' = []) \/
     (logs w' = logs empty_world
                  ++ [LogDecodeError (LibError "zip: not a valid zip file")] /\
      BinaryPreparable.Cmd b' = "" /\
      BinaryPreparable.Envs b' = [] ++ runtime_envs "/sys/n/runtime") \/
     (logs w' = logs empty_world
                  ++ [LogUnzipError (LibError "zip: not a valid zip file")
                        "/sys/n/runtime"] /\
      BinaryPreparable.Cmd b' = "/sys/n/runtime/bootstrap" /\
      BinaryPreparable.Envs b' = [] ++ runtime_envs "/sys/n/runtime")).
Proof.
  do 2 eexists. split; [vm_compute; reflexivity |].
  apply (bundle_PrepareBin_error_cases (H := scenario_externals)
           (BinaryPreparable.mk "n" "" "" "junk" "/sys" "" "" false [] [])
           _ empty_world).
  vm_compute. reflexivity.
Defined.

Lemma bundle_PrepareBin_success_frame_witness :
  exists b' w',
    BinaryPreparable.PrepareBin (H := scenario_externals)
      (BinaryPreparable.mk "n" "" "" "bundle" "/sys/" "" "" false [] ["A=1"],
       empty_world) = Done ("", None) (b', w') /\
    "" = "" /\ logs w' = logs empty_world /\
    b' = BinaryPreparable.mk "n" "" "/sys/n/runtime/bootstrap" "bundle" "/sys"
           "" "" false []
           ["A=1"; "LAMBDA_TASK_ROOT=/sys/n/runtime";
            "PATH=/home/silas/.deno/bin:/usr/bin"].
Proof.
  do 2 eexists. split; [vm_compute; reflexivity |].
  apply (bundle_PrepareBin_success_frame (H := scenario_externals)
           (BinaryPreparable.mk "n" "" "" "bundle" "/sys/" "" "" false []
              ["A=1"]) _ empty_world _ "").
  vm_compute. reflexivity.
Defined.

Lemma bundle_PrepareBin_twice_repeats_envs_witness :
  exists b1 w1 b2 w2,
    BinaryPreparable.PrepareBin (H := scenario_externals)
      (BinaryPreparable.mk "n" "" "" "bundle" "/sys/" "" "" false [] [],
       empty_world) = Done ("", None) (b1, w1) /\
    BinaryPreparable.PrepareBin (H := scenario_externals) (b1, w1)
      = Done ("", None) (b2, w2) /\
    BinaryPreparable.Envs b2 =
      ["LAMBDA_TASK_ROOT=/sys/n/runtime"; "PATH=/home/silas/.deno/bin:/usr/bin";
       "LAMBDA_TASK_ROOT=/sys/n/runtime"; "PATH=/home/silas/.deno/bin:/usr/bin"].
Proof.
  do 4 eexists. split; [vm_compute; reflexivity |].
  split; [vm_compute; reflexivity |].
  eapply (bundle_PrepareBin_twice_repeats_envs (H := scenario_externals)
            (BinaryPreparable.mk "n" "" "" "bundle" "/sys/" "" "" false [] [])
            _ _ empty_world _ _ "" "").
  - vm_compute. reflexivity.
  - vm_compute. reflexivity.
Defined.

(** ** More on the locked structured-config files *)

Lemma Lock_Done (path : string) (w w1 : World) (u : unit) :
  Lock path w = Done u w1 ->
(path ∉ held w) /\ w1 = set_held ({[path]} ∪ held w) w.
Proof.
  unfold Lock. destruct (decide (path ∈ held w)); [done |].
  by intros [= _ <-].
Qed.

Lemma world_eq (w w' : World) :
  files w' = files w -> logs w' = logs w -> held w' = held w -> w' = w.
Proof. destruct w, w'. simpl. by intros -> -> ->. Qed.

Lemma OpenFile_set_held (path : string) (h : gset string) (w : World) :
  OpenFile path (set_held h w) =
    match OpenFile path w with
    | Done o w2 => Done o (set_held h w2)
    | Panic => Panic
    | Fatal s => Fatal (set_held h s)
    | Blocked => Blocked
    end.
Proof.
  unfold OpenFile. simpl. destruct (String.eqb path ""); [done |].
  destruct (stat (files w) (Clean path)) as [[|c]|]; [done | done |].
  by destruct (stat (files w) (Dir (Clean path))) as [[|c]|].
Qed.

Section TomlOutcomes.
Context {V : Type} `{Toml V}.

(** How SafeWriteTomlFile returns: the file could not be opened and the
    world is as it was, or the file now holds what the encoder wrote. *)
Lemma SafeWriteTomlFile_Done (v : V) (path : string) (w w' : World)
    (r : option error) :
  SafeWriteTomlFile v path w = Done r w' ->
  (path ∉ held w) /\
  ((exists e, r = Some e /\ w' = w /\
      OpenFile path w = Done (inl e) w) \/
   (r = snd (toml_encode v) /\
    w' = set_files (<[Clean path := IsFile (fst (toml_encode v))]> (files w)) w)).
Proof.
  unfold SafeWriteTomlFile. intros E.
  apply bind_Done_inv in E as (u & wl & Lk & E).
  apply Lock_Done in Lk as (N & ->). split; [done |].
  apply bind_Done_inv in E as (o & w2 & Op & E).
  apply bind_Done_inv in E as (r' & w3 & Body & E).
  apply bind_Done_inv in E as (u' & w4 & Ul & E).
  unfold ret in E. injection E as -> ->.
  unfold Unlock, modify in Ul. injection Ul as _ <-.
  rewrite OpenFile_set_held in Op.
  destruct (OpenFile path w) as [o' w2'| | |] eqn:Op0; try done.
  injection Op as <- <-.
  apply OpenFile_Done in Op0 as (L2 & H2 & Op0).
  destruct o' as [e|h].
  - subst w2'. injection Body as <- <-. left. exists e.
    split; [done |]. split; [| done].
    apply world_eq; simpl; try done. apply set_eq. intros x.
    rewrite elem_of_difference, elem_of_union, elem_of_singleton.
    split; [tauto | intros I; repeat split; [by right | by intros ->]].
  - destruct Op0 as (-> & Np & A & F2).
    apply bind_Done_inv in Body as (u'' & w5 & Wb & Body).
    unfold ret in Body. injection Body as <- <-.
    destruct (Write_Done _ _ _ _ _ Wb) as (L5 & H5 & F5).
    simpl in F5, L5, H5.
    specialize (F5 "" ltac:(rewrite F2; apply lookup_insert_eq)).
    right. split; [done |].
    apply world_eq; simpl.
    + rewrite F5, F2. apply insert_insert_eq.
    + congruence.
    + rewrite H5. apply set_eq. intros x.
      rewrite elem_of_difference, elem_of_union, elem_of_singleton.
      split; [tauto | intros I; repeat split; [by right | by intros ->]].
Qed.

(** X17: a successful SafeWriteTomlFile replaces the file and touches
    nothing else.  When it returns no error, the world differs from the one
    before in one place only: the file at the cleaned path holds exactly the
    bytes the encoder wrote, whatever it held before.  The other files, the
    log and the locks are as they were; the lock of the file is released. *)
Theorem safe_write_replaces_file (v : V) (path : string) (w w' : World) :
  SafeWriteTomlFile v path w = Done None w' ->
  w' = set_files (<[Clean path := IsFile (fst (toml_encode v))]> (files w)) w.
Proof.
  intros E. apply SafeWriteTomlFile_Done in E as (_ & [(e & [=] & _)|(_ & ->)]).
  done.
Qed.

(** X18: a SafeWriteTomlFile that returns an error.  Either the file could
    not be opened, and the world is as it was; or the encoder failed, and
    the file has been truncated all the same: it holds what the encoder
    wrote before it failed, and what it held before is lost.  In both cases
    the lock is released. *)
Theorem safe_write_error_cases (v : V) (path : string) (w w' : World)
    (e : error) :
  SafeWriteTomlFile v path w = Done (Some e) w' ->
  held w' = held w /\ logs w' = logs w /\
  (w' = w /\ OpenFile path w = Done (inl e) w \/
   snd (toml_encode v) = Some e /\
   files w' = <[Clean path := IsFile (fst (toml_encode v))]> (files w)).
Proof.
  intros E.
  apply SafeWriteTomlFile_Done in E as (_ & [(e0 & [= <-] & -> & Op)|(Er & ->)]).
  - split; [done |]. split; [done |]. by left.
  - split; [done |]. split; [done |]. by right.
Qed.

(** X19: SafeReadTomlFile changes nothing in the world.  When it returns,
    the files, the log and the locks are as before (the lock it took is
    released).  If the file could not be read, the target is as it was and
    the error of the read is returned; otherwise the result is what the
    decoder makes of the bytes of the file. *)
Theorem safe_read_changes_nothing (path : string) (target v : V)
    (err : option error) (w w' : World) :
  SafeReadTomlFile path target w = Done (v, err) w' ->
  w' = w /\
  ((exists e, ReadFile path w = Done (inl e) w /\ v = target /\ err = Some e) \/
   (exists bytes, ReadFile path w = Done (inr bytes) w /\
                  (v, err) = toml_decode bytes target)).
Proof.
  unfold SafeReadTomlFile. intros E.
  apply bind_Done_inv in E as (u & wl & Lk & E).
  apply Lock_Done in Lk as (N & ->).
  apply bind_Done_inv in E as (r & w2 & Dc & E).
  apply bind_Done_inv in E as (u' & w3 & Ul & E).
  unfold ret in E. injection E as -> ->.
  unfold Unlock, modify in Ul. injection Ul as _ <-.
  unfold toml_DecodeFile, bind in Dc.
  rewrite (ReadFile_files path w (set_held ({[path]} ∪ held w) w)) in Dc by done.
  destruct (ReadFile_returns path w) as (rd & Rd). rewrite Rd in *.
  assert (w2 = set_held ({[path]} ∪ held w) w) as ->
    by (destruct rd; by injection Dc as _ <-).
  split.
  - by apply unlock_lock.
  - destruct rd as [e|bytes].
    + left. exists e. unfold ret in Dc. by injection Dc as <- <-.
    + right. exists bytes. unfold ret in Dc. by injection Dc as <-.
Qed.


End TomlOutcomes.

Lemma safe_write_replaces_file_witness :
  exists w',
    SafeWriteTomlFile (H := verbatim_toml) "registry" "/sys/n/function.zip"
      (staged "bundle") = Done None w' /\
    w' = set_files (<["/sys/n/function.zip" := IsFile "registry"]>
                      (files (staged "bundle"))) (staged "bundle").
Proof.
  eexists. split; [vm_compute; reflexivity |].
  apply (safe_write_replaces_file (H := verbatim_toml) "registry"
           "/sys/n/function.zip" (staged "bundle")).
  vm_compute. reflexivity.
Defined.

Lemma safe_write_error_cases_witness :
  exists w',
    SafeWriteTomlFile (H := failing_toml) "registry" "/sys/n/function.zip"
      (staged "bundle") = Done (Some (LibError "toml: cannot encode")) w' /\
    files w' !! "/sys/n/function.zip" = Some (IsFile "reg").
Proof.
  eexists. split; [vm_compute; reflexivity |].
  destruct (safe_write_error_cases (H := failing_toml) "registry"
              "/sys/n/function.zip" (staged "bundle") _
              (LibError "toml: cannot encode") eq_refl)
    as (_ & _ & [(_ & Op)|(_ & F)]).
  - discriminate Op.
  - reflexivity.
Defined.

Lemma safe_read_changes_nothing_witness :
  exists w',
    SafeReadTomlFile (H := verbatim_toml) "/sys/n/function.zip" ""
      (staged "bundle") = Done ("bundle", None) w' /\
    w' = staged "bundle".
Proof.
  eexists. split; [vm_compute; reflexivity |].
  eapply proj1.
  apply (safe_read_changes_nothing (H := verbatim_toml) "/sys/n/function.zip"
           "" "bundle" None (staged "bundle")).
  vm_compute. reflexivity.
Defined.


(** ** The other file utilities: WriteFile, GetFile, DeleteFile *)

Lemma stat_file (fs : gmap string node) (p c : string) :
  stat fs p = Some (IsFile c) -> anchor p = false /\ fs !! p = Some (IsFile c).
Proof. unfold stat. by destruct (anchor p). Qed.

Lemma stat_None (fs : gmap string node) (p : string) :
  stat fs p = None -> anchor p = false /\ fs !! p = None.
Proof. unfold stat. by destruct (anchor p). Qed.



(** X22: utils.GetFile opens for appending.  On a path that is spelled as
    cleaned, a file that is there is opened as it is, and the world is not
    changed; a file that is not there is made, empty.  What is then written
    through the handle is put after what the file held: nothing of it is
    lost, where WriteFile would have replaced it. *)
Theorem utils_GetFile_appends (path h data : string) (w w1 w2 : World) :
  Clean path = path ->
  utils.GetFile path w = Done (inr h) w1 ->
  Write h data w1 = Done tt w2 ->
  h = path /\
  (forall old, files w !! path = Some (IsFile old) ->
     w1 = w /\ files w2 = <[path := IsFile (old +:+ data)]> (files w)) /\
  (files w !! path = None ->
     files w1 = <[path := IsFile ""]> (files w) /\
     files w2 = <[path := IsFile data]> (files w)).
Proof.
  intros Cl G Wr. unfold utils.GetFile, OpenFile_append in G. rewrite Cl in G.
  destruct (String.eqb path ""); [done |].
  destruct (stat (files w) path) as [[|c]|] eqn:St; [done | |].
  - injection G as <- <-. apply stat_file in St as (_ & L).
    apply Write_Done in Wr as (_ & _ & F). specialize (F c L).
    split; [done |]. split; [| by rewrite L].
    intros old L'. rewrite L in L'. by injection L' as <-.
  - apply stat_None in St as (_ & L).
    destruct (stat (files w) (Dir path)) as [[|c]|]; [| done | done].
    injection G as <- <-. apply Write_Done in Wr as (_ & _ & F).
    simpl in F. specialize (F "" ltac:(apply lookup_insert_eq)).
    split; [done |]. split; [by rewrite L |].
    intros _. split; [done |]. rewrite F. apply insert_insert_eq.
Qed.

Lemma utils_GetFile_appends_witness :
  exists w1 w2,
    utils.GetFile "/sys/n/function.zip" (staged "old") = Done (inr "/sys/n/function.zip") w1 /\
    Write "/sys/n/function.zip" "new" w1 = Done tt w2 /\
    w1 = staged "old" /\
    files w2 = <["/sys/n/function.zip" := IsFile "oldnew"]> (files (staged "old")).
Proof.
  do 2 eexists. split; [vm_compute; reflexivity |].
  split; [vm_compute; reflexivity |].
  destruct (utils_GetFile_appends "/sys/n/function.zip" "/sys/n/function.zip"
              "new" (staged "old") _ _ eq_refl eq_refl eq_refl) as (_ & F & _).
  apply (F "old"). vm_compute. reflexivity.
Defined.

Lemma cleaned_nonempty (path : string) : Clean path = path -> path <> "".
Proof. intros Cl ->. discriminate Cl. Qed.

Lemma has_entries_spec (fs : gmap string node) (d : string) :
  has_entries fs d = true <->
  exists k n, fs !! k = Some n /\ Dir k = d /\ k <> d.
Proof.
  unfold has_entries. rewrite existsb_exists. split.
  - intros ([k n] & I & C). apply andb_prop in C as (C1 & C2).
    apply String.eqb_eq in C1. apply negb_true_iff, String.eqb_neq in C2.
    exists k, n. split; [| done].
    by apply elem_of_map_to_list, list_elem_of_In.
  - intros (k & n & L & D & N). exists (k, n). split.
    + by apply list_elem_of_In, elem_of_map_to_list.
    + simpl. apply andb_true_intro. split.
      * by apply String.eqb_eq.
      * by apply negb_true_iff, String.eqb_neq.
Qed.

(** X23: utils.DeleteFile removes one name or nothing.  On a path that is
    spelled as cleaned: when it returns no error, the name was there and
    the world differs from the one before by that one name only, which is
    gone; when it returns an error, the world is as it was.  Deleting the
    same path once more then fails at os.Stat. *)
Theorem utils_DeleteFile_outcomes (path : string) (r : option error)
    (w w' : World) :
  Clean path = path ->
  utils.DeleteFile path w = Done r w' ->
  match r with
  | None =>
      (exists n, files w !! path = Some n) /\
      w' = set_files (delete path (files w)) w /\
      exists e, utils.DeleteFile path w' = Done (Some (PathError "stat" path e)) w'
  | Some _ => w' = w
  end.
Proof.
  intros Cl E. pose proof (cleaned_nonempty _ Cl) as Np.
  apply String.eqb_neq in Np.
  unfold utils.DeleteFile, bind, os_Stat in E. rewrite Np, Cl in E.
  assert (forall fs, fs !! path = None -> anchor path = false ->
            exists e, utils.DeleteFile path (set_files fs w)
                      = Done (Some (PathError "stat" path e)) (set_files fs w))
    as Again.
  { intros fs L A. unfold utils.DeleteFile, bind, os_Stat, stat.
    rewrite Np, Cl, A. simpl. rewrite L. by eexists. }
  unfold stat in E. destruct (anchor path) eqn:A.
  { unfold os_Remove in E. rewrite Np, Cl, A in E. by injection E as <- <-. }
  destruct (files w !! path) as [n|] eqn:L; [| by injection E as <- <-].
  unfold os_Remove in E. rewrite Np, Cl, A, L in E.
  destruct n as [|c].
  - destruct (has_entries (files w) path); injection E as <- <-; [done |].
    split; [by eauto |]. split; [done |].
    apply Again; [apply lookup_delete_eq | done].
  - injection E as <- <-.
    split; [by eauto |]. split; [done |].
    apply Again; [apply lookup_delete_eq | done].
Qed.

Lemma utils_DeleteFile_outcomes_witness :
  exists w',
    utils.DeleteFile "/sys/n/function.zip" (staged "bundle") = Done None w' /\
    w' = set_files (delete "/sys/n/function.zip" (files (staged "bundle")))
           (staged "bundle") /\
    exists e, utils.DeleteFile "/sys/n/function.zip" w'
              = Done (Some (PathError "stat" "/sys/n/function.zip" e)) w'.
Proof.
  eexists. split; [vm_compute; reflexivity |].
  eapply proj2.
  apply (utils_DeleteFile_outcomes "/sys/n/function.zip" None
           (staged "bundle")); vm_compute; reflexivity.
Defined.

(** X24: utils.DeleteFile and directories.  Despite its name DeleteFile
    removes a directory too, when the directory holds nothing; a directory
    that holds an entry is not removed: an error is returned and the world
    is as it was.  (The path is spelled as cleaned and is not the root, the
    working directory or one of its ancestors.) *)
Theorem utils_DeleteFile_directory (path : string) (w : World) :
  Clean path = path -> anchor path = false ->
  files w !! path = Some IsDir ->
  ((exists k n, files w !! k = Some n /\ Dir k = path /\ k <> path) ->
   exists e, utils.DeleteFile path w = Done (Some e) w) /\
  (~ (exists k n, files w !! k = Some n /\ Dir k = path /\ k <> path) ->
   utils.DeleteFile path w
     = Done None (set_files (delete path (files w)) w)).
Proof.
  intros Cl A L. pose proof (cleaned_nonempty _ Cl) as Np.
  apply String.eqb_neq in Np.
  unfold utils.DeleteFile, bind, os_Stat, os_Remove, stat.
  rewrite Np, Cl, A, L. cbv beta iota. rewrite ?L.
  split; intros Ch.
  - apply has_entries_spec in Ch. rewrite Ch. by eexists.
  - destruct (has_entries (files w) path) eqn:Hs; [| done].
    by apply has_entries_spec in Hs.
Qed.

Lemma utils_DeleteFile_directory_witness :
  (exists e, utils.DeleteFile "/sys/n" (staged "bundle")
             = Done (Some e) (staged "bundle")) /\
  utils.DeleteFile "/sys/n/runtime" (staged "bundle")
    = Done None (set_files (delete "/sys/n/runtime" (files (staged "bundle")))
                   (staged "bundle")).
Proof.
  split.
  - apply (utils_DeleteFile_directory "/sys/n" (staged "bundle"));
      [vm_compute; reflexivity.. |].
    exists "/sys/n/runtime", IsDir.
    split; [vm_compute; reflexivity |]. split; [vm_compute; reflexivity | discriminate].
  - apply (utils_DeleteFile_directory "/sys/n/runtime" (staged "bundle"));
      [vm_compute; reflexivity.. |].
    intros Ch. apply has_entries_spec in Ch. vm_compute in Ch. discriminate Ch.
Defined.

(** ** What a successful bundle preparation leaves on disk *)

Lemma filter_all {A} (P : A -> Prop) `{forall x, Decision (P x)} (l : list A) :
  Forall P l -> filter P l = l.
Proof.
  induction 1 as [|x l Px _ IH]; [done |].
  rewrite filter_cons_True by done. by rewrite IH.
Qed.

Lemma stat_weaken (fs fs' : gmap string node) (d : string) :
  fs ⊆ fs' -> stat fs d = Some IsDir -> stat fs' d = Some IsDir.
Proof.
  unfold stat. destruct (anchor d); [done |].
  intros Sub L. by apply (lookup_weaken _ _ _ _ L).
Qed.

Lemma stat_keeps_dir (fs fs' : gmap string node) (d : string) :
  keeps_kinds fs fs' -> stat fs d = Some IsDir -> stat fs' d = Some IsDir.
Proof.
  unfold stat. destruct (anchor d); [done |].
  intros K L. destruct (K _ _ L) as ([|c] & L' & S); [done | done].
Qed.

Lemma mkdir_chain_makes (dirs : list string) (fs fs' : gmap string node) :
  mkdir_chain fs dirs = inr fs' ->
  forall d, d ∈ dirs -> stat fs' d = Some IsDir.
Proof.
  revert fs. induction dirs as [|x dirs IH]; intros fs E d I.
  - by apply elem_of_nil in I.
  - simpl in E. apply elem_of_cons in I as [->|I].
    + destruct (stat fs x) as [[|c]|] eqn:St; [| done |].
      * apply (stat_weaken fs); [| done].
        by apply (mkdir_chain_subseteq _ _ _ E).
      * apply (stat_weaken (<[x := IsDir]> fs));
          [by apply (mkdir_chain_subseteq _ _ _ E) |].
        unfold stat. destruct (anchor x); [done | apply lookup_insert_eq].
    + destruct (stat fs x) as [[|c]|]; [by apply (IH fs) | done |].
      by apply (IH _ E).
Qed.

Lemma ancestors_self (path : string) :
  path <> "" ->
  anchor (Clean path) = true \/ Clean path ∈ ancestors (Clean path).
Proof.
  intros N. destruct (Clean_form path N) as (acc & Cd & E).
  destruct (cleaned_no_slash _ _ Cd) as (Ns & Ne).
  set (l := rev acc) in *.
  assert (forall pre, l <> [] ->
            pre +:+ join_slash l ∈
              map (fun n => pre +:+ join_slash (take n l)) (seq 1 (length l)))
    as Last.
  { intros pre Nl. apply list_elem_of_fmap. exists (length l).
    split; [by rewrite firstn_all |].
    apply list_elem_of_In, in_seq. destruct l; [done | simpl; lia]. }
  destruct (rooted path) eqn:R.
  - destruct l as [|e l'] eqn:El; [left; by rewrite E |].
    right. rewrite E. unfold ancestors.
    assert (filter (fun x => x <> "")
              (split_slash ("/" +:+ join_slash (e :: l'))) = e :: l') as Fl.
    { change ("/" +:+ join_slash (e :: l'))
        with ("" +:+ String slash (join_slash (e :: l'))).
      rewrite split_slash_app, (split_slash_join (e :: l')) by done.
      change (split_slash "" ++ e :: l') with ("" :: e :: l').
      rewrite filter_cons_False by (by intros ?).
      by apply filter_all. }
    assert (rooted ("/" +:+ join_slash (e :: l')) = true) as Rt by reflexivity.
    rewrite Fl, Rt. by apply Last.
  - destruct (String.eqb (join_slash l) "") eqn:J; [left; by rewrite E |].
    right. rewrite E. unfold ancestors.
    assert (l <> []) as Nl by (intros Z; by rewrite Z in J).
    rewrite (split_slash_join l Nl Ns), (filter_all _ _ Ne).
    destruct l as [|e l'] eqn:El; [done |].
    apply Forall_cons in Ns as (Ns1 & _). apply Forall_cons in Ne as (Ne1 & _).
    rewrite (rooted_join e l' Ne1 Ns1). by apply (Last "").
Qed.

Lemma MkdirAll_makes_dir (path : string) (w w1 : World) :
  MkdirAll path w = Done None w1 ->
  stat (files w1) (Clean path) = Some IsDir.
Proof.
  unfold MkdirAll. destruct (String.eqb_spec path "") as [|N]; [done |].
  destruct (mkdir_chain _ _) as [e|fs] eqn:E; [done |]. intros [= <-]. simpl.
  destruct (ancestors_self path N) as [A|I].
  - unfold stat. by rewrite A.
  - by apply (mkdir_chain_makes _ _ _ E).
Qed.

Lemma WriteFile_keeps_kinds (path data : string) (w w' : World)
    (r : option error) :
  WriteFile path data w = Done r w' -> keeps_kinds (files w) (files w').
Proof.
  unfold WriteFile. intros E.
  apply bind_Done_inv in E as (o & w1 & Op & E).
  pose proof (OpenFile_keeps_kinds _ _ _ _ Op) as K1.
  destruct o as [e|h]; [by injection E as _ <- |].
  apply bind_Done_inv in E as (u & w2 & Wr & E). injection E as _ <-.
  eapply keeps_kinds_trans; [exact K1 |].
  by apply (Write_keeps_kinds _ _ _ _ _ Wr).
Qed.

Section BundleOnDisk.
Context `{Externals}.

Lemma Unzip_keeps_kinds (src dest : string) (w w' : World) (r : option error) :
  Unzip src dest w = Done r w' -> keeps_kinds (files w) (files w').
Proof.
  unfold Unzip, zip_OpenReader, bind.
  destruct (ReadFile_returns src w) as (rd & ->).
  destruct rd as [e|bytes]; [intros [= _ <-]; apply keeps_kinds_refl |].
  unfold ret. destruct (zip_entries bytes) as [e|entries];
    [intros [= _ <-]; apply keeps_kinds_refl |].
  intros U. apply (unzip_entries_final dest entries w w'). by rewrite U.
Qed.

(** X25: what a successful binary-bundle PrepareBin leaves on disk.  With
    workloadDir built from the SysFolder that the call leaves in the
    descriptor, workloadDir/runtime is a directory and
    workloadDir/function.zip is a regular file: the staged archive is not
    removed once it has been extracted. *)
Theorem bundle_PrepareBin_leaves_on_disk (b b' : BinaryPreparable.t)
    (w w' : World) (out : string) :
  BinaryPreparable.PrepareBin (b, w) = Done (out, None) (b', w') ->
  let wd := BinaryPreparable.SysFolder b' +:+ "/" +:+ BinaryPreparable.Name b' in
  stat (files w') (Clean (wd +:+ "/runtime")) = Some IsDir /\
  is_file (files w') (Clean (wd +:+ "/function.zip")).
Proof.
  unfold BinaryPreparable.PrepareBin. intros E. cbv zeta.
  step_desc_as E G1 outPath.
  apply BinaryPreparable_getOutPath_Done in G1 as (N0 & _ & ->).
  step_world_as E M1 r1. destruct r1 as [e0|]; [done |].
  step_desc_as E G2 path2.
  apply BinaryPreparable_getPath_Done in G2 as (N1 & -> & ->).
  step_world_as E M2 r2. destruct r2 as [e0|]; [done |].
  apply MkdirAll_makes_dir in M2 as D2.
  step_desc_as E Md u1. injection Md as _ <-.
  step_desc_as E Gb bz. injection Gb as <- <-.
  simpl in E.
  destruct (base64_decode (BinaryPreparable.BZipFile b)) as [e0|decoded] eqn:B64.
  { step_world_as E Lg u. done. }
  step_desc_as E G3 path3.
  apply BinaryPreparable_getPath_Done in G3 as (N2 & -> & ->).
  step_world_as E Wf r3. destruct r3 as [e0|]; [step_world_as E Lg u; done |].
  pose proof (WriteFile_keeps_kinds _ _ _ _ _ Wf) as K3.
  apply WriteFile_then_ReadFile in Wf as (Rd & _).
  step_world_as E Uz r4.
  pose proof (Unzip_keeps_kinds _ _ _ _ _ Uz) as K4.
  apply bind_Done_inv in E as (u3 & s3 & Lg & E).
  step_desc_as E G4 path4.
  apply BinaryPreparable_getPath_Done in G4 as (N3 & -> & ->).
  step_desc_as E Mc u2. injection Mc as _ <-.
  injection E as <- -> <- <-.
  injection Lg as _ <-. simpl in *.
  apply Unzip_done in Uz as (_ & _ & _ & _ & _ & _ & Fz & _).
  set (s := BinaryPreparable.SysFolder b) in *.
  set (n := BinaryPreparable.Name b) in *.
  split.
  - apply (stat_keeps_dir _ _ _ K4), (stat_keeps_dir _ _ _ K3).
    rewrite !append_assoc in *.
    change ("/" +:+ n +:+ "/runtime") with (String slash (n +:+ "/runtime")) in *.
    rewrite !Clean_TrimSuffix in D2 by done.
    by rewrite !Clean_TrimSuffix.
  - match type of Rd with
    | ReadFile ?p ?w2 = _ => assert (is_file (files w2) (Clean p)) as F3
    end.
    { unfold ReadFile in Rd.
      destruct (String.eqb _ "") in Rd; [done |].
      destruct (stat _ _) as [[|c]|] eqn:St in Rd; [done | | done].
      apply stat_file in St as (_ & L). by exists c. }
    apply Fz. rewrite !append_assoc in *.
    change ("/" +:+ n +:+ "/function.zip")
      with (String slash (n +:+ "/function.zip")) in *.
    rewrite !Clean_TrimSuffix in F3 by done.
    by rewrite !Clean_TrimSuffix.
Qed.

End BundleOnDisk.

Lemma bundle_PrepareBin_leaves_on_disk_witness :
  exists b' w',
    BinaryPreparable.PrepareBin (H := scenario_externals)
      (BinaryPreparable.mk "n" "" "" "bundle" "/sys/" "" "" false [] [],
       empty_world) = Done ("", None) (b', w') /\
    stat (files w')
      (Clean ((BinaryPreparable.SysFolder b' +:+ "/" +:+
               BinaryPreparable.Name b') +:+ "/runtime")) = Some IsDir /\
    is_file (files w')
      (Clean ((BinaryPreparable.SysFolder b' +:+ "/" +:+
               BinaryPreparable.Name b') +:+ "/function.zip")).
Proof.
  do 2 eexists. split; [vm_compute; reflexivity |].
  apply (bundle_PrepareBin_leaves_on_disk (H := scenario_externals)
           (BinaryPreparable.mk "n" "" "" "bundle" "/sys/" "" "" false [] [])
           _ empty_world _ "").
  vm_compute. reflexivity.
Defined.
